(** * CHIP-8-Py: a shallow embedding of [chip8/chip8.py]

    The interpreter is the Python class [Chip8]: ten attributes and one
    method per instruction.  Every method mutates [self] and may raise; the
    embedding threads the object through a state-and-exception monad whose
    exceptional outcome keeps the object as mutated so far, because a Python
    exception does not roll attribute writes back.

    Python integers are unbounded, so they are [Z]; list subscripts follow
    Python's rule (negative subscripts count from the end, anything else out
    of range raises [IndexError]); true division produces a binary64 float,
    which is a primitive [float] here. *)

From Stdlib Require Import ZArith Bool Lia Floats.
From stdpp Require Import base list.

Local Open Scope Z_scope.

(** ** Python values and exceptions *)

(** The exceptions the methods of [Chip8] can raise.  [quit()] raises
    [SystemExit], which ends the interpreter process unless a caller catches
    it; calling the constant [NotImplemented] raises [TypeError]. *)
Inductive exn : Type :=
  | IndexError
  | TypeError
  | OverflowError
  | SystemExit.

(** The values that end up in [memory] cells and in [draw_flag]. *)
Inductive pyval : Type :=
  | PyInt (z : Z)
  | PyFloat (f : float)
  | PyBool (b : bool).

Definition int_of_bool (b : bool) : Z := if b then 1 else 0.

(** ** List subscripts *)

(** [l[i]] for a list of length [len]: the position read or written. *)
Definition py_index (len i : Z) : option nat :=
  if (0 <=? i) && (i <? len) then Some (Z.to_nat i)
  else if (- len <=? i) && (i <? 0) then Some (Z.to_nat (len + i))
  else None.

Definition getitem {A : Type} (l : list A) (i : Z) : option A :=
  match py_index (Z.of_nat (length l)) i with
  | Some n => l !! n
  | None => None
  end.

Definition setitem {A : Type} (l : list A) (i : Z) (x : A) : option (list A) :=
  match py_index (Z.of_nat (length l)) i with
  | Some n => Some (<[n:=x]> l)
  | None => None
  end.

(** [l[:len(src)] = src], the slice assignment of [load_font]. *)
Definition set_prefix {A : Type} (l src : list A) : list A :=
  src ++ drop (length src) l.

(** ** Arithmetic on floats *)

Definition float_ten : float := 10%float.

(** C's [fmod(x, 10.0)]: the exact remainder of the truncated division, with
    the sign of [x].  A finite float is [m * 2^e]; its remainder is again a
    multiple of [2^e] (or an integer below ten) no larger than [x], so it is
    a float and nothing is rounded. *)
Definition fmod_ten (x : float) : float :=
  match Prim2SF x with
  | S754_zero _ => x
  | S754_finite sg m e =>
      let '(m', e') :=
        if 0 <=? e then ((Z.pos m * 2 ^ e) mod 10, 0)
        else (Z.pos m mod (10 * 2 ^ (- e)), e) in
      SF2Prim (binary_normalize prec emax (if sg then - m' else m') e' sg)
  | _ => nan
  end.

(** [float_rem], Python's [%] on floats, at the divisor [10.0]. *)
Definition float_rem_ten (x : float) : float :=
  let m := fmod_ten x in
  if PrimFloat.eqb m 0%float then 0%float
  else if PrimFloat.ltb m 0%float then (m + float_ten)%float
  else m.

Definition Z2SF_exact (a : Z) : spec_float :=
  match a with
  | Z0 => S754_zero false
  | Zpos p => S754_finite false p 0
  | Zneg p => S754_finite true p 0
  end.

(** [a / 10] on an integer [a]: the quotient rounded once to the nearest
    float (ties to even), [OverflowError] when it is too large for one. *)
Definition int_truediv_ten (a : Z) : exn + float :=
  match SFdiv prec emax (Z2SF_exact a) (S754_finite false 10 0) with
  | S754_infinity _ => inl OverflowError
  | r => inr (SF2Prim r)
  end.

(** [dec % 10] *)
Definition py_mod_ten (dec : pyval) : pyval :=
  match dec with
  | PyInt a => PyInt (a mod 10)
  | PyBool b => PyInt (int_of_bool b mod 10)
  | PyFloat f => PyFloat (float_rem_ten f)
  end.

(** [dec / 10] *)
Definition py_truediv_ten (dec : pyval) : exn + pyval :=
  match dec with
  | PyInt a =>
      match int_truediv_ten a with inl e => inl e | inr f => inr (PyFloat f) end
  | PyBool b =>
      match int_truediv_ten (int_of_bool b) with
      | inl e => inl e
      | inr f => inr (PyFloat f)
      end
  | PyFloat f => inr (PyFloat (f / float_ten)%float)
  end.

(** ** The interpreter object *)

Record Chip8 : Type := mkChip8 {
  program_counter : Z;
  stack_pointer : Z;
  address_register : Z;
  registers : list Z;
  memory : list pyval;
  stack : list Z;
  delay_timer : Z;
  sound_timer : Z;
  draw_flag : pyval;
  display : list (list float)
}.

Definition set_program_counter (v : Z) (s : Chip8) : Chip8 :=
  mkChip8 v (stack_pointer s) (address_register s) (registers s) (memory s)
          (stack s) (delay_timer s) (sound_timer s) (draw_flag s) (display s).

Definition set_stack_pointer (v : Z) (s : Chip8) : Chip8 :=
  mkChip8 (program_counter s) v (address_register s) (registers s) (memory s)
          (stack s) (delay_timer s) (sound_timer s) (draw_flag s) (display s).

Definition set_address_register (v : Z) (s : Chip8) : Chip8 :=
  mkChip8 (program_counter s) (stack_pointer s) v (registers s) (memory s)
          (stack s) (delay_timer s) (sound_timer s) (draw_flag s) (display s).

Definition set_registers (v : list Z) (s : Chip8) : Chip8 :=
  mkChip8 (program_counter s) (stack_pointer s) (address_register s) v (memory s)
          (stack s) (delay_timer s) (sound_timer s) (draw_flag s) (display s).

Definition set_memory (v : list pyval) (s : Chip8) : Chip8 :=
  mkChip8 (program_counter s) (stack_pointer s) (address_register s) (registers s) v
          (stack s) (delay_timer s) (sound_timer s) (draw_flag s) (display s).

Definition set_stack (v : list Z) (s : Chip8) : Chip8 :=
  mkChip8 (program_counter s) (stack_pointer s) (address_register s) (registers s)
          (memory s) v (delay_timer s) (sound_timer s) (draw_flag s) (display s).

Definition set_delay_timer (v : Z) (s : Chip8) : Chip8 :=
  mkChip8 (program_counter s) (stack_pointer s) (address_register s) (registers s)
          (memory s) (stack s) v (sound_timer s) (draw_flag s) (display s).

Definition set_sound_timer (v : Z) (s : Chip8) : Chip8 :=
  mkChip8 (program_counter s) (stack_pointer s) (address_register s) (registers s)
          (memory s) (stack s) (delay_timer s) v (draw_flag s) (display s).

Definition set_draw_flag (v : pyval) (s : Chip8) : Chip8 :=
  mkChip8 (program_counter s) (stack_pointer s) (address_register s) (registers s)
          (memory s) (stack s) (delay_timer s) (sound_timer s) v (display s).

Definition set_display (v : list (list float)) (s : Chip8) : Chip8 :=
  mkChip8 (program_counter s) (stack_pointer s) (address_register s) (registers s)
          (memory s) (stack s) (delay_timer s) (sound_timer s) (draw_flag s) v.

(** ** Methods as state transformers that may raise *)

Inductive outcome (A : Type) : Type :=
  | Return (a : A) (s : Chip8)
  | Raise (e : exn) (s : Chip8).
Arguments Return {A} a s.
Arguments Raise {A} e s.

Definition M (A : Type) : Type := Chip8 -> outcome A.

Definition ret_ {A : Type} (a : A) : M A := fun s => Return a s.

Definition bind {A B : Type} (c : M A) (k : A -> M B) : M B :=
  fun s =>
    match c s with
    | Return a s' => k a s'
    | Raise e s' => Raise e s'
    end.

Definition raise {A : Type} (e : exn) : M A := fun s => Raise e s.

Declare Scope py_scope.
Delimit Scope py_scope with py.
Notation "x <- c ;; k" := (bind c (fun x => k))
  (at level 100, c at next level, right associativity) : py_scope.
Notation "c ;; k" := (bind c (fun _ => k))
  (at level 100, right associativity) : py_scope.
Local Open Scope py_scope.

(** [self.attr] and [self.attr = v] *)
Definition read {A : Type} (attr : Chip8 -> A) : M A := fun s => Return (attr s) s.
Definition write (upd : Chip8 -> Chip8) : M unit := fun s => Return tt (upd s).

(** Lift a subscript: [None] is Python's [IndexError]. *)
Definition subscript {A : Type} (o : option A) : M A :=
  match o with
  | Some a => ret_ a
  | None => raise IndexError
  end.

(** Lift an arithmetic result that may raise. *)
Definition arith {A : Type} (r : exn + A) : M A :=
  match r with
  | inr a => ret_ a
  | inl e => raise e
  end.

(** [self.registers[vx]] *)
Definition get_register (vx : Z) : M Z :=
  regs <- read registers ;; subscript (getitem regs vx).

(** [self.registers[vx] = v]; the list object is updated in place. *)
Definition put_register (vx v : Z) : M unit :=
  regs <- read registers ;;
  regs' <- subscript (setitem regs vx v) ;;
  write (set_registers regs').

(** [self.memory[addr] = v] *)
Definition put_memory (addr : Z) (v : pyval) : M unit :=
  mem <- read memory ;;
  mem' <- subscript (setitem mem addr v) ;;
  write (set_memory mem').

(** [self.program_counter += k] *)
Definition advance (k : Z) : M unit :=
  pc <- read program_counter ;; write (set_program_counter (pc + k)).

(** [logger.debug(...)] and [logger.error(...)] write to the logging
    framework and leave the object alone. *)
Definition logger_debug : M unit := ret_ tt.
Definition logger_error : M unit := ret_ tt.

(** [quit()] *)
Definition quit : M unit := raise SystemExit.

(** [NotImplemented()]: the constant [NotImplemented] is not callable. *)
Definition NotImplemented_call : M unit := raise TypeError.

(** [if c: body] *)
Definition when (c : bool) (body : M unit) : M unit :=
  if c then body else ret_ tt.

(** ** Construction *)

Definition font : list Z :=
  [0xF0; 0x90; 0x90; 0x90; 0xF0;
   0x20; 0x60; 0x20; 0x20; 0x70;
   0xF0; 0x10; 0xF0; 0x80; 0xF0;
   0xF0; 0x10; 0xF0; 0x10; 0xF0;
   0xA0; 0xA0; 0xF0; 0x20; 0x20;
   0xF0; 0x80; 0xF0; 0x10; 0xF0;
   0xF0; 0x80; 0xF0; 0x90; 0xF0;
   0xF0; 0x10; 0x20; 0x40; 0x40;
   0xF0; 0x90; 0xF0; 0x90; 0xF0;
   0xF0; 0x90; 0xF0; 0x10; 0xF0;
   0xF0; 0x90; 0xF0; 0x90; 0x90;
   0xE0; 0x90; 0xE0; 0x90; 0xE0;
   0xF0; 0x80; 0x80; 0x80; 0xF0;
   0xE0; 0x90; 0x90; 0x90; 0xE0;
   0xF0; 0x80; 0xF0; 0x80; 0xF0;
   0xF0; 0x80; 0xF0; 0x80; 0x80].

(** [np.zeros((32, 64))] *)
Definition np_zeros : list (list float) := replicate 32 (replicate 64 0%float).

(** [load_font]: [self.memory[:len(font)] = font] *)
Definition load_font : M unit :=
  mem <- read memory ;;
  write (set_memory (set_prefix mem (map PyInt font))).

(** The object [__init__] leaves behind before it calls [load_font]. *)
Definition blank : Chip8 :=
  {| program_counter := 0x200;
     stack_pointer := 0;
     address_register := 0x000;
     registers := replicate 16 0;
     memory := replicate 4096 (PyInt 0);
     stack := replicate 16 0;
     delay_timer := 0;
     sound_timer := 0;
     draw_flag := PyInt 0;
     display := np_zeros |}.

(** [Chip8()] *)
Definition init : Chip8 :=
  match load_font blank with
  | Return _ s => s
  | Raise _ s => s
  end.

(** ** Control flow *)

(** Instruction 00E0 *)
Definition clear : M unit :=
  logger_debug ;;
  write (set_display np_zeros) ;;
  write (set_draw_flag (PyBool true)) ;;
  advance 2.

(** Instruction 00EE *)
Definition ret : M unit :=
  logger_debug ;;
  sp <- read stack_pointer ;;
  write (set_stack_pointer (sp - 1)) ;;
  sp <- read stack_pointer ;;
  when (sp <? 0) (logger_error ;; quit) ;;
  stk <- read stack ;;
  sp <- read stack_pointer ;;
  top <- subscript (getitem stk sp) ;;
  write (set_program_counter top) ;;
  advance 2.

(** Instruction 1nnn *)
Definition jump (nnn : Z) : M unit :=
  logger_debug ;;
  write (set_program_counter nnn) ;;
  pc <- read program_counter ;;
  when (4028 <? pc) (logger_error ;; quit).

(** Instruction 2nnn *)
Definition call (nnn : Z) : M unit :=
  logger_debug ;;
  stk <- read stack ;;
  sp <- read stack_pointer ;;
  pc <- read program_counter ;;
  stk' <- subscript (setitem stk sp pc) ;;
  write (set_stack stk') ;;
  write (set_program_counter nnn) ;;
  pc <- read program_counter ;;
  when (4028 <? pc) logger_error ;;
  sp <- read stack_pointer ;;
  write (set_stack_pointer (sp + 1)) ;;
  sp <- read stack_pointer ;;
  stk <- read stack ;;
  when (Z.of_nat (length stk) <? sp) logger_error.

(** Instruction 3xkk *)
Definition skip_if (vx kk : Z) : M unit :=
  logger_debug ;;
  x <- get_register vx ;;
  when (x =? kk) (advance 2) ;;
  advance 2.

(** Instruction 4xkk *)
Definition skip_if_not (vx kk : Z) : M unit :=
  logger_debug ;;
  x <- get_register vx ;;
  when (negb (x =? kk)) (advance 2) ;;
  advance 2.

(** Instruction 5xy0 *)
Definition skip_if_xy (vx vy : Z) : M unit :=
  logger_debug ;;
  x <- get_register vx ;;
  y <- get_register vy ;;
  when (x =? y) (advance 2) ;;
  advance 2.

(** Instruction 9xy0 *)
Definition skip_if_not_xy (vx vy : Z) : M unit :=
  logger_debug ;;
  x <- get_register vx ;;
  y <- get_register vy ;;
  when (negb (x =? y)) (advance 2) ;;
  advance 2.

(** Instruction Bnnn *)
Definition jump_v0 (nnn : Z) : M unit :=
  logger_debug ;;
  v0 <- get_register 0x0 ;;
  write (set_program_counter (v0 + nnn)).

(** ** Arithmetic and logic *)

(** Instruction 6xkk *)
Definition load (vx kk : Z) : M unit :=
  logger_debug ;;
  put_register vx kk ;;
  advance 2.

(** Instruction 7xkk: [self.registers[vx] += kk] *)
Definition add (vx kk : Z) : M unit :=
  logger_debug ;;
  x <- get_register vx ;;
  put_register vx (x + kk) ;;
  advance 2.

(** Instruction 8xy0 *)
Definition load_xy (vx vy : Z) : M unit :=
  logger_debug ;;
  y <- get_register vy ;;
  put_register vx y ;;
  advance 2.

(** Instruction 8xy1: [self.registers[vx] |= self.registers[vy]] *)
Definition or_xy (vx vy : Z) : M unit :=
  logger_debug ;;
  x <- get_register vx ;;
  y <- get_register vy ;;
  put_register vx (Z.lor x y) ;;
  advance 2.

(** Instruction 8xy2 *)
Definition and_xy (vx vy : Z) : M unit :=
  logger_debug ;;
  x <- get_register vx ;;
  y <- get_register vy ;;
  put_register vx (Z.land x y) ;;
  advance 2.

(** Instruction 8xy3 *)
Definition x_or_xy (vx vy : Z) : M unit :=
  logger_debug ;;
  x <- get_register vx ;;
  y <- get_register vy ;;
  put_register vx (Z.lxor x y) ;;
  advance 2.

(** Instruction 8xy4 *)
Definition add_xy (vx vy : Z) : M unit :=
  logger_debug ;;
  x <- get_register vx ;;
  y <- get_register vy ;;
  let num := x + y in
  (if 255 <? num then put_register 0xF 1 else put_register 0xF 0) ;;
  put_register vx num ;;
  advance 2.

(** Instruction 8xy5 *)
Definition sub_xy (vx vy : Z) : M unit :=
  logger_debug ;;
  x <- get_register vx ;;
  y <- get_register vy ;;
  (if y <? x then put_register 0xF 1 else put_register 0xF 0) ;;
  x <- get_register vx ;;
  y <- get_register vy ;;
  put_register vx (x - y) ;;
  advance 2.

(** Instruction 8xy6 *)
Definition shift_right (vx : Z) : M unit :=
  logger_debug ;;
  x <- get_register vx ;;
  put_register 0xF (Z.land x 0x1) ;;
  x <- get_register vx ;;
  put_register vx (Z.shiftr x 1) ;;
  advance 2.

(** Instruction 8xy7 *)
Definition sub_yx (vx vy : Z) : M unit :=
  logger_debug ;;
  y <- get_register vy ;;
  x <- get_register vx ;;
  (if x <? y then put_register 0xF 1 else put_register 0xF 0) ;;
  y <- get_register vy ;;
  x <- get_register vx ;;
  put_register vx (y - x) ;;
  advance 2.

(** Instruction 8xyE *)
Definition shift_left (vx : Z) : M unit :=
  logger_debug ;;
  x <- get_register vx ;;
  put_register 0xF (Z.land (Z.shiftr x 7) 0x1) ;;
  x <- get_register vx ;;
  put_register vx (Z.shiftl x 1) ;;
  advance 2.

(** Instruction Cxkk; [r] is the draw of [randint(0, 255)]. *)
Definition rand (r : Z) (vx kk : Z) : M unit :=
  logger_debug ;;
  put_register vx (Z.land kk r) ;;
  advance 2.

(** ** Memory, timers and keys *)

(** Instruction Annn *)
Definition load_i (nnn : Z) : M unit :=
  logger_debug ;;
  write (set_address_register nnn) ;;
  advance 2.

(** Instruction Dxyn: the body is the placeholder call, which raises before
    the program counter moves. *)
Definition draw (vx vy n : Z) : M unit :=
  logger_debug ;;
  NotImplemented_call ;;
  advance 2.

(** Instruction Ex9E *)
Definition skip_if_key (vx : Z) : M unit :=
  logger_debug ;;
  NotImplemented_call ;;
  advance 2.

(** Instruction ExA1 *)
Definition skip_if_key_not (vx : Z) : M unit :=
  logger_debug ;;
  NotImplemented_call ;;
  advance 2.

(** Instruction Fx07 *)
Definition load_xdt (vx : Z) : M unit :=
  logger_debug ;;
  dt <- read delay_timer ;;
  put_register vx dt ;;
  advance 2.

(** Instruction Fx0A *)
Definition load_key (vx : Z) : M unit :=
  logger_debug ;;
  NotImplemented_call ;;
  advance 2.

(** Instruction Fx15 *)
Definition load_dtx (vx : Z) : M unit :=
  logger_debug ;;
  x <- get_register vx ;;
  write (set_delay_timer x) ;;
  advance 2.

(** Instruction Fx18: the assignment targets [self.stack_pointer]. *)
Definition load_stx (vx : Z) : M unit :=
  logger_debug ;;
  x <- get_register vx ;;
  write (set_stack_pointer x) ;;
  advance 2.

(** Instruction Fx1E *)
Definition add_ix (vx : Z) : M unit :=
  logger_debug ;;
  i <- read address_register ;;
  x <- get_register vx ;;
  write (set_address_register (i + x)) ;;
  advance 2.

(** Instruction Fx29 *)
Definition load_ix (vx : Z) : M unit :=
  logger_debug ;;
  x <- get_register vx ;;
  write (set_address_register (x * 5)) ;;
  advance 2.

(** The loop of [load_bcd] over the values [idx] of [i]:
    [self.memory[self.address_register+i] = dec % 10; dec /= 10]. *)
Fixpoint load_bcd_loop (idx : list Z) (dec : pyval) : M unit :=
  match idx with
  | [] => ret_ tt
  | i :: rest =>
      a <- read address_register ;;
      put_memory (a + i) (py_mod_ten dec) ;;
      dec' <- arith (py_truediv_ten dec) ;;
      load_bcd_loop rest dec'
  end.

(** Instruction Fx33; [range(2, -1, -1)] is [2, 1, 0]. *)
Definition load_bcd (vx : Z) : M unit :=
  logger_debug ;;
  x <- get_register vx ;;
  load_bcd_loop [2; 1; 0] (PyInt x) ;;
  advance 2.

(** Instruction Fx55 *)
Definition save_v (vx : Z) : M unit :=
  logger_debug ;;
  NotImplemented_call ;;
  advance 2.

(** Instruction Fx65 *)
Definition load_v (vx : Z) : M unit :=
  logger_debug ;;
  NotImplemented_call ;;
  advance 2.

(** [load_file] on the bytes [data] read from the ROM file:
    [for index, val in enumerate(data): self.memory[self.program_counter + index] = int(val)] *)
Fixpoint load_file_loop (index : Z) (data : list Z) : M unit :=
  match data with
  | [] => ret_ tt
  | val :: rest =>
      pc <- read program_counter ;;
      put_memory (pc + index) (PyInt val) ;;
      load_file_loop (index + 1) rest
  end.

Definition load_file (data : list Z) : M unit :=
  logger_debug ;;
  load_file_loop 0 data.

(** ** The cycle *)

(** [get_instruction] and [execute_instruction] as the class has them. *)
Definition get_instruction : M Z :=
  NotImplemented_call ;;
  ret_ 0.

Definition execute_instruction (instruction : Z) : M unit :=
  NotImplemented_call.

(** The timer part of [cycle]. *)
Definition decrement_timers : M unit :=
  dt <- read delay_timer ;;
  when (0 <? dt) (write (set_delay_timer (dt - 1))) ;;
  st <- read sound_timer ;;
  when (0 <? st) (write (set_sound_timer (st - 1))).

Section Cycle.

(** [cycle] calls [self.get_instruction()] and
    [self.execute_instruction(instruction)], which Python looks up on the
    object when the call happens; the body of [cycle] is therefore stated
    over whichever pair of methods the object carries. *)
Variable fetch : M Z.
Variable execute : Z -> M unit.

Definition cycle_with : M unit :=
  logger_debug ;;
  instruction <- fetch ;;
  execute instruction ;;
  decrement_timers.

(** [n] consecutive calls of [cycle]; the first exception ends the run. *)
Fixpoint run_cycles (n : nat) : M unit :=
  match n with
  | O => ret_ tt
  | S k => cycle_with ;; run_cycles k
  end.

End Cycle.

(** [Chip8.cycle] *)
Definition cycle : M unit := cycle_with get_instruction execute_instruction.

(** A decoder and executor that return normally and touch nothing: the
    least a finished pair of methods does. *)
Definition fetch_idle : M Z := ret_ 0.
Definition execute_idle (instruction : Z) : M unit := ret_ tt.

(** ** Reading an outcome *)

Definition final_state {A : Type} (r : outcome A) : Chip8 :=
  match r with
  | Return _ s => s
  | Raise _ s => s
  end.

(** The exception, if any, that leaves the method. *)
Definition raised {A : Type} (r : outcome A) : option exn :=
  match r with
  | Return _ _ => None
  | Raise e _ => Some e
  end.

(** [quit()] was reached: the core itself ends the process. *)
Definition terminates_process {A : Type} (r : outcome A) : Prop :=
  raised r = Some SystemExit.

(** Register [i] of a well-formed register file, for statements. *)
Definition reg (s : Chip8) (i : Z) : Z := default 0 (getitem (registers s) i).

(** Memory cell [a], for statements. *)
Definition cell (s : Chip8) (a : Z) : option pyval := getitem (memory s) a.

(** The shape [__init__] gives the three lists and that no method changes. *)
Definition well_formed (s : Chip8) : Prop :=
  length (registers s) = 16%nat /\ length (stack s) = 16%nat /\
  length (memory s) = 4096%nat.

(** Every general register holds an 8-bit value. *)
Definition registers_8bit (s : Chip8) : Prop :=
  Forall (fun v => 0 <= v <= 255) (registers s).

(** Everything but the program counter is the same in [s] and [s']. *)
Definition unchanged_but_pc (s s' : Chip8) : Prop :=
  stack_pointer s' = stack_pointer s /\
  address_register s' = address_register s /\
  registers s' = registers s /\
  memory s' = memory s /\
  stack s' = stack s /\
  delay_timer s' = delay_timer s /\
  sound_timer s' = sound_timer s /\
  draw_flag s' = draw_flag s /\
  display s' = display s.

(** A method that returns normally and leaves both timers as they were. *)
Definition keeps_timers {A : Type} (c : M A) : Prop :=
  forall s, exists a s',
    c s = Return a s' /\
    delay_timer s' = delay_timer s /\ sound_timer s' = sound_timer s.

(** What one pass through the timer part of [cycle] does to a timer. *)
Definition tick (t : Z) : Z := if 0 <? t then t - 1 else t.

(** A state of the interpreter with [V0 = a], [V1 = b] and [VF = f]. *)
Definition with_registers (a b f : Z) (s : Chip8) : Chip8 :=
  set_registers (<[15%nat:=f]> (<[1%nat:=b]> (<[0%nat:=a]> (registers s)))) s.

(** Properly nested subroutines: each target is called, the deeper ones run
    inside it, and it returns. *)
Fixpoint nested (targets : list Z) : M unit :=
  match targets with
  | [] => ret_ tt
  | nnn :: deeper => call nnn ;; nested deeper ;; ret
  end.

(** Two methods run one after the other. *)
Definition then_ (c1 c2 : M unit) : M unit := c1 ;; c2.

(** Everything but the memory is the same in [s] and [s']. *)
Definition unchanged_but_memory (s s' : Chip8) : Prop :=
  program_counter s' = program_counter s /\
  stack_pointer s' = stack_pointer s /\
  address_register s' = address_register s /\
  registers s' = registers s /\
  stack s' = stack s /\
  delay_timer s' = delay_timer s /\
  sound_timer s' = sound_timer s /\
  draw_flag s' = draw_flag s /\
  display s' = display s.

(** * Properties *)

(** Subscripts are reasoned about through their lemmas, not unfolded. *)
Arguments getitem : simpl never.
Arguments setitem : simpl never.

(** ** Subscripts *)

Section Subscripts.

Context {A : Type}.
Implicit Types (l : list A) (i j : Z) (x : A).

Lemma py_index_nonneg (len i : Z) :
  0 <= i < len -> py_index len i = Some (Z.to_nat i).
Proof.
  intros H. unfold py_index.
  destruct (Z.leb_spec 0 i); [|lia].
  destruct (Z.ltb_spec i len); [reflexivity|lia].
Qed.

Lemma getitem_nonneg l i :
  0 <= i < Z.of_nat (length l) -> getitem l i = l !! Z.to_nat i.
Proof. intros H. unfold getitem. now rewrite py_index_nonneg. Qed.

Lemma setitem_nonneg l i x :
  0 <= i < Z.of_nat (length l) ->
  setitem l i x = Some (<[Z.to_nat i:=x]> l).
Proof. intros H. unfold setitem. now rewrite py_index_nonneg. Qed.

Lemma getitem_is_Some l i :
  0 <= i < Z.of_nat (length l) -> exists x, getitem l i = Some x.
Proof.
  intros H. rewrite getitem_nonneg by assumption.
  destruct (lookup_lt_is_Some_2 l (Z.to_nat i)) as [x Hx]; [lia|].
  now exists x.
Qed.

Lemma getitem_insert_eq l i x :
  0 <= i < Z.of_nat (length l) ->
  getitem (<[Z.to_nat i:=x]> l) i = Some x.
Proof.
  intros H. rewrite getitem_nonneg by (rewrite length_insert; assumption).
  apply list_lookup_insert_eq. lia.
Qed.

Lemma getitem_insert_ne l i j x :
  0 <= i < Z.of_nat (length l) -> 0 <= j < Z.of_nat (length l) -> i <> j ->
  getitem (<[Z.to_nat i:=x]> l) j = getitem l j.
Proof.
  intros Hi Hj Hne.
  rewrite !getitem_nonneg by (rewrite ?length_insert; assumption).
  apply list_lookup_insert_ne. lia.
Qed.

End Subscripts.

(** ** Register access on a sixteen-register file *)

Lemma get_register_ok (s : Chip8) (vx : Z) :
  length (registers s) = 16%nat -> 0 <= vx < 16 ->
  get_register vx s = Return (reg s vx) s.
Proof.
  intros Hlen Hvx. unfold get_register, bind, read, reg.
  destruct (getitem_is_Some (registers s) vx) as [x Hx]; [lia|].
  now rewrite Hx.
Qed.

Lemma put_register_ok (s : Chip8) (vx v : Z) :
  length (registers s) = 16%nat -> 0 <= vx < 16 ->
  put_register vx v s =
  Return tt (set_registers (<[Z.to_nat vx:=v]> (registers s)) s).
Proof.
  intros Hlen Hvx. unfold put_register, bind, read.
  rewrite setitem_nonneg by lia. reflexivity.
Qed.

Lemma reg_put_eq (s : Chip8) (vx v : Z) :
  length (registers s) = 16%nat -> 0 <= vx < 16 ->
  reg (set_registers (<[Z.to_nat vx:=v]> (registers s)) s) vx = v.
Proof.
  intros Hlen Hvx. unfold reg. simpl.
  rewrite getitem_insert_eq by lia. reflexivity.
Qed.

Lemma reg_put_ne (s : Chip8) (vx vy v : Z) :
  length (registers s) = 16%nat -> 0 <= vx < 16 -> 0 <= vy < 16 -> vx <> vy ->
  reg (set_registers (<[Z.to_nat vx:=v]> (registers s)) s) vy = reg s vy.
Proof.
  intros Hlen Hvx Hvy Hne. unfold reg. simpl.
  rewrite getitem_insert_ne by lia. reflexivity.
Qed.

Lemma length_put (s : Chip8) (n : nat) (v : Z) :
  length (registers (set_registers (<[n:=v]> (registers s)) s)) =
  length (registers s).
Proof. simpl. apply length_insert. Qed.

Lemma unchanged_but_pc_set (s : Chip8) (pc : Z) :
  unchanged_but_pc s (set_program_counter pc s).
Proof. repeat split. Qed.

(** ** The skip family *)

(** Unfold the monad's plumbing and let the matches on outcomes compute. *)
Ltac py_simpl :=
  cbv beta iota zeta delta
    [bind when advance read write ret_ raise quit logger_debug logger_error
     NotImplemented_call subscript arith].

(** Read the attributes of an updated object. *)
Ltac state_simpl :=
  cbn [program_counter stack_pointer address_register registers memory stack
       delay_timer sound_timer draw_flag display
       set_program_counter set_stack_pointer set_address_register
       set_registers set_memory set_stack set_delay_timer set_sound_timer
       set_draw_flag set_display].

(** Close a goal [Return tt s1 = Return tt s2] whose states differ by
    arithmetic on the fields. *)
Ltac same_state :=
  simpl; unfold set_program_counter, set_stack_pointer, set_registers,
    set_stack; simpl; f_equal; f_equal; try lia.

(** Running a skip on a sixteen-register file: the outcome in closed form. *)
Lemma skip_if_run (s : Chip8) (vx kk : Z) :
  length (registers s) = 16%nat -> 0 <= vx < 16 ->
  skip_if vx kk s =
  Return tt (set_program_counter
               (program_counter s + (if reg s vx =? kk then 4 else 2)) s).
Proof.
  intros Hlen Hvx. unfold skip_if. py_simpl.
  rewrite get_register_ok by assumption.
  destruct (reg s vx =? kk); same_state.
Qed.

Lemma skip_if_not_run (s : Chip8) (vx kk : Z) :
  length (registers s) = 16%nat -> 0 <= vx < 16 ->
  skip_if_not vx kk s =
  Return tt (set_program_counter
               (program_counter s + (if reg s vx =? kk then 2 else 4)) s).
Proof.
  intros Hlen Hvx. unfold skip_if_not. py_simpl.
  rewrite get_register_ok by assumption.
  destruct (reg s vx =? kk); same_state.
Qed.

Lemma skip_if_xy_run (s : Chip8) (vx vy : Z) :
  length (registers s) = 16%nat -> 0 <= vx < 16 -> 0 <= vy < 16 ->
  skip_if_xy vx vy s =
  Return tt (set_program_counter
               (program_counter s + (if reg s vx =? reg s vy then 4 else 2)) s).
Proof.
  intros Hlen Hvx Hvy. unfold skip_if_xy. py_simpl.
  rewrite get_register_ok by assumption.
  rewrite get_register_ok by assumption.
  destruct (reg s vx =? reg s vy); same_state.
Qed.

Lemma skip_if_not_xy_run (s : Chip8) (vx vy : Z) :
  length (registers s) = 16%nat -> 0 <= vx < 16 -> 0 <= vy < 16 ->
  skip_if_not_xy vx vy s =
  Return tt (set_program_counter
               (program_counter s + (if reg s vx =? reg s vy then 2 else 4)) s).
Proof.
  intros Hlen Hvx Hvy. unfold skip_if_not_xy. py_simpl.
  rewrite get_register_ok by assumption.
  rewrite get_register_ok by assumption.
  destruct (reg s vx =? reg s vy); same_state.
Qed.

(** C10. Each of the four value skips (3xkk, 4xkk, 5xy0, 9xy0), run with
    register indices in 0..15 on the sixteen-register file, returns normally
    and changes nothing but the program counter, which grows by 4 when the
    instruction's condition holds and by 2 otherwise: the registers, memory,
    stack, stack pointer, index register, both timers, the display and the
    draw flag are as before. *)
Theorem skip_family_frame (s : Chip8) (vx vy kk : Z) :
  length (registers s) = 16%nat -> 0 <= vx < 16 -> 0 <= vy < 16 ->
  (exists s1, skip_if vx kk s = Return tt s1 /\
     program_counter s1 =
       program_counter s + (if reg s vx =? kk then 4 else 2) /\
     unchanged_but_pc s s1) /\
  (exists s2, skip_if_not vx kk s = Return tt s2 /\
     program_counter s2 =
       program_counter s + (if negb (reg s vx =? kk) then 4 else 2) /\
     unchanged_but_pc s s2) /\
  (exists s3, skip_if_xy vx vy s = Return tt s3 /\
     program_counter s3 =
       program_counter s + (if reg s vx =? reg s vy then 4 else 2) /\
     unchanged_but_pc s s3) /\
  (exists s4, skip_if_not_xy vx vy s = Return tt s4 /\
     program_counter s4 =
       program_counter s + (if negb (reg s vx =? reg s vy) then 4 else 2) /\
     unchanged_but_pc s s4).
Proof.
  intros Hlen Hvx Hvy.
  rewrite skip_if_run, skip_if_not_run, skip_if_xy_run, skip_if_not_xy_run
    by assumption.
  repeat split; eexists; (split; [reflexivity|]);
    (split; [simpl; repeat destruct (_ =? _); reflexivity
            | apply unchanged_but_pc_set]).
Qed.

(** The four skips on the fresh interpreter with [V0 = 7], [V1 = 9]. *)
Lemma skip_family_frame_witness :
  let s := with_registers 7 9 0 init in
  (exists s1, skip_if 0 7 s = Return tt s1 /\
     program_counter s1 =
       program_counter s + (if reg s 0 =? 7 then 4 else 2) /\
     unchanged_but_pc s s1) /\
  (exists s2, skip_if_not 0 7 s = Return tt s2 /\
     program_counter s2 =
       program_counter s + (if negb (reg s 0 =? 7) then 4 else 2) /\
     unchanged_but_pc s s2) /\
  (exists s3, skip_if_xy 0 1 s = Return tt s3 /\
     program_counter s3 =
       program_counter s + (if reg s 0 =? reg s 1 then 4 else 2) /\
     unchanged_but_pc s s3) /\
  (exists s4, skip_if_not_xy 0 1 s = Return tt s4 /\
     program_counter s4 =
       program_counter s + (if negb (reg s 0 =? reg s 1) then 4 else 2) /\
     unchanged_but_pc s s4).
Proof.
  apply (skip_family_frame (with_registers 7 9 0 init) 0 1 7);
    [reflexivity | lia | lia].
Defined.

(** ** Call and return *)

Lemma call_run (s : Chip8) (nnn : Z) :
  0 <= stack_pointer s < Z.of_nat (length (stack s)) ->
  call nnn s =
  Return tt
    (set_stack_pointer (stack_pointer s + 1)
       (set_program_counter nnn
          (set_stack
             (<[Z.to_nat (stack_pointer s):=program_counter s]> (stack s)) s))).
Proof.
  intros Hsp. unfold call. py_simpl.
  rewrite setitem_nonneg by assumption. state_simpl.
  destruct (4028 <? nnn); destruct (_ <? _); reflexivity.
Qed.

Lemma ret_run (s : Chip8) (top : Z) :
  0 <= stack_pointer s - 1 < Z.of_nat (length (stack s)) ->
  stack s !! Z.to_nat (stack_pointer s - 1) = Some top ->
  ret s =
  Return tt (set_program_counter (top + 2)
               (set_stack_pointer (stack_pointer s - 1) s)).
Proof.
  intros Hsp Htop. unfold ret. py_simpl. state_simpl.
  destruct (Z.ltb_spec (stack_pointer s - 1) 0); [lia|]. state_simpl.
  rewrite getitem_nonneg by assumption. rewrite Htop. reflexivity.
Qed.

(** C8. From any state with a sixteen-slot stack and the stack pointer in
    0..15, and for every target, [call] followed by [ret] both return
    normally and leave the program counter at the call-site value plus 2
    and the stack pointer at its value before the call. *)
Theorem call_then_ret_restores (s : Chip8) (nnn : Z) :
  length (stack s) = 16%nat -> 0 <= stack_pointer s <= 15 ->
  exists s1 s2,
    call nnn s = Return tt s1 /\ ret s1 = Return tt s2 /\
    program_counter s2 = program_counter s + 2 /\
    stack_pointer s2 = stack_pointer s.
Proof.
  intros Hlen Hsp.
  eexists. eexists. split.
  - apply call_run. lia.
  - split.
    + apply (ret_run _ (program_counter s)); simpl.
      * rewrite length_insert. lia.
      * replace (stack_pointer s + 1 - 1) with (stack_pointer s) by lia.
        apply list_lookup_insert_eq. lia.
    + simpl. split; [reflexivity | lia].
Qed.

(** A call to 0x300 from the fresh interpreter, then the return. *)
Lemma call_then_ret_restores_witness :
  exists s1 s2,
    call 0x300 init = Return tt s1 /\ ret s1 = Return tt s2 /\
    program_counter s2 = program_counter init + 2 /\
    stack_pointer s2 = stack_pointer init.
Proof.
  apply (call_then_ret_restores init 0x300); [reflexivity | simpl; lia].
Defined.

(** ** Jump *)

(** [jump] in closed form: the guard compares the new program counter with
    4028 and quits above it. *)
Lemma jump_run (s : Chip8) (nnn : Z) :
  jump nnn s =
  if 4028 <? nnn then Raise SystemExit (set_program_counter nnn s)
  else Return tt (set_program_counter nnn s).
Proof.
  unfold jump. py_simpl. state_simpl. destruct (4028 <? nnn); reflexivity.
Qed.

(** C7. The target 0xFFF lies in the address range 0..0xFFF of the 4096-cell
    memory, yet [jump 0xFFF] on the fresh interpreter does not return: after
    the program counter is set to 0xFFF the guard [program_counter > 4028]
    fires and [quit()] raises [SystemExit].  The same happens at 4029, the
    first target above the guard's constant, while 4028 is still accepted. *)
Theorem jump_quits_below_memory_end :
  length (memory init) = 4096%nat /\
  0 <= 0xFFF < Z.of_nat (length (memory init)) /\
  jump 0xFFF init = Raise SystemExit (set_program_counter 0xFFF init) /\
  terminates_process (jump 0xFFF init) /\
  jump 4029 init = Raise SystemExit (set_program_counter 4029 init) /\
  jump 4028 init = Return tt (set_program_counter 4028 init).
Proof.
  split; [reflexivity|]. split; [vm_compute; split; [discriminate|reflexivity]|].
  unfold terminates_process. rewrite !jump_run. repeat split.
Qed.

(** ** The sound timer *)

(** [load_stx] in closed form on a sixteen-register file. *)
Lemma load_stx_run (s : Chip8) (vx : Z) :
  length (registers s) = 16%nat -> 0 <= vx < 16 ->
  load_stx vx s =
  Return tt (set_program_counter (program_counter s + 2)
               (set_stack_pointer (reg s vx) s)).
Proof.
  intros Hlen Hvx. unfold load_stx. py_simpl.
  rewrite get_register_ok by assumption. reflexivity.
Qed.

(** C1. On the fresh interpreter with [V0 = 5], whose sound timer and stack
    pointer are both 0, [load_stx 0] (Fx18) returns normally and advances the
    program counter by 2, but the sound timer is still 0 afterwards and the
    stack pointer has become 5: the value of [V0] went to the stack pointer,
    not to the sound timer. *)
Theorem load_stx_sets_stack_pointer :
  let s := with_registers 5 0 0 init in
  reg s 0 = 5 /\ sound_timer s = 0 /\ stack_pointer s = 0 /\
  exists s',
    load_stx 0 s = Return tt s' /\
    program_counter s' = program_counter s + 2 /\
    sound_timer s' = 0 /\ sound_timer s' <> reg s 0 /\
    stack_pointer s' = 5 /\ stack_pointer s' <> stack_pointer s.
Proof.
  intros s. repeat (split; [reflexivity|]).
  eexists. split; [apply load_stx_run; [reflexivity | lia]|].
  repeat split; vm_compute; discriminate.
Qed.

(** ** Register width *)

(** C3. On the fresh interpreter with [V0 = 200] and [V1 = 100], both 8-bit
    values, [add_xy 0 1] (8xy4) returns normally, sets [VF] to 1 and advances
    the program counter by 2, but leaves the whole sum 300 in [V0] where the
    low eight bits of the sum are 44: the sum is stored without being
    reduced modulo 256. *)
Theorem add_xy_keeps_ninth_bit :
  let s := with_registers 200 100 0 init in
  reg s 0 = 200 /\ reg s 1 = 100 /\ (200 + 100) mod 256 = 44 /\
  exists s',
    add_xy 0 1 s = Return tt s' /\
    reg s' 0xF = 1 /\
    program_counter s' = program_counter s + 2 /\
    reg s' 0 = 300 /\ reg s' 0 <> (reg s 0 + reg s 1) mod 256.
Proof.
  intros s. repeat (split; [reflexivity|]).
  eexists. split; [vm_compute; reflexivity|].
  repeat split; vm_compute; discriminate.
Qed.

(** One register outside 0..255 refutes [registers_8bit]. *)
Lemma registers_8bit_fails (s : Chip8) (i : nat) (v : Z) :
  registers s !! i = Some v -> ~ 0 <= v <= 255 -> ~ registers_8bit s.
Proof.
  intros Hi Hv Hall. apply Hv.
  exact (proj1 (Forall_lookup _ _) Hall i v Hi).
Qed.

(** C5. Three handlers take a register file whose sixteen values all lie in
    0..255 to one that holds a value outside that range, each returning
    normally: [add 0 1] (7xkk) with [V0 = 255] leaves 256 in [V0];
    [shift_left 0] (8xyE) with [V0 = 128] leaves 256 in [V0]; and
    [sub_xy 0 1] (8xy5) with [V0 = 0], [V1 = 1] leaves -1 in [V0]. *)
Theorem handlers_leave_8bit_range :
  (let s := with_registers 255 0 0 init in
   registers_8bit s /\
   exists s', add 0 1 s = Return tt s' /\ reg s' 0 = 256 /\
              ~ registers_8bit s') /\
  (let s := with_registers 128 0 0 init in
   registers_8bit s /\
   exists s', shift_left 0 s = Return tt s' /\ reg s' 0 = 256 /\
              ~ registers_8bit s') /\
  (let s := with_registers 0 1 0 init in
   registers_8bit s /\
   exists s', sub_xy 0 1 s = Return tt s' /\ reg s' 0 = -1 /\
              ~ registers_8bit s').
Proof.
  repeat split;
    try (unfold registers_8bit; vm_compute registers;
         repeat constructor; discriminate).
  - eexists. split; [vm_compute; reflexivity|]. split; [reflexivity|].
    apply (registers_8bit_fails _ 0%nat 256); [reflexivity | lia].
  - eexists. split; [vm_compute; reflexivity|]. split; [reflexivity|].
    apply (registers_8bit_fails _ 0%nat 256); [reflexivity | lia].
  - eexists. split; [vm_compute; reflexivity|]. split; [reflexivity|].
    apply (registers_8bit_fails _ 0%nat (-1)); [reflexivity | lia].
Qed.

(** ** Binary-coded decimal *)

(** C9. On the fresh interpreter with [V0 = 123] and [I = 0x300],
    [load_bcd 0] (Fx33) returns normally and advances the program counter by
    2, and the ones digit 3 is at [I+2]; but [I+1] holds the float
    2.3000000000000007 where the tens digit is 2, and [I] holds the float
    1.23 where the hundreds digit is 1: [dec /= 10] is a true division, so
    after the first round [dec] is a float and so are the remainders. *)
Theorem load_bcd_stores_floats :
  let s := set_address_register 0x300 (with_registers 123 0 0 init) in
  reg s 0 = 123 /\ address_register s = 0x300 /\
  exists s',
    load_bcd 0 s = Return tt s' /\
    program_counter s' = program_counter s + 2 /\
    cell s' 0x302 = Some (PyInt (123 mod 10)) /\
    cell s' 0x301 = Some (PyFloat 0x1.2666666666668p+1) /\
    cell s' 0x301 <> Some (PyInt ((123 / 10) mod 10)) /\
    cell s' 0x300 = Some (PyFloat 0x1.3ae147ae147aep+0) /\
    cell s' 0x300 <> Some (PyInt (123 / 100)) /\
    PrimFloat.ltb 2 0x1.2666666666668p+1 = true /\
    PrimFloat.ltb 1 0x1.3ae147ae147aep+0 = true.
Proof.
  intros s. repeat (split; [reflexivity|]).
  eexists. split; [vm_compute; reflexivity|].
  repeat split; vm_compute; discriminate.
Qed.

(** ** Stack faults *)

(** [call] never reaches [quit()]: the only statement of it that can raise
    is the write to [self.stack]. *)
Lemma call_raises_only_IndexError (s : Chip8) (nnn : Z) :
  raised (call nnn s) = None \/ raised (call nnn s) = Some IndexError.
Proof.
  unfold call. py_simpl.
  destruct (setitem (stack s) (stack_pointer s) (program_counter s));
    [left | right; reflexivity].
  state_simpl. destruct (4028 <? nnn); destruct (_ <? _); reflexivity.
Qed.

(** C6, as stated, fails for [ret]: on the fresh interpreter, whose stack
    pointer is 0, [ret] reaches [quit()], so the core itself ends the
    process, with the stack pointer left at -1. *)
Lemma ret_underflow_quits :
  stack_pointer init = 0 /\
  ret init = Raise SystemExit (set_stack_pointer (-1) init) /\
  terminates_process (ret init).
Proof. repeat split. Qed.

(** C6, amended.  On a sixteen-slot stack: [ret] with the stack pointer at 0
    lowers it to -1 and calls [quit()], which raises [SystemExit] and ends
    the process unless the host catches it; [call] with the stack pointer at
    16 raises [IndexError] from the write [self.stack[16]], before anything
    of the object has changed; and [call] never ends the process itself,
    whatever the state. *)
Theorem stack_fault_outcomes (s : Chip8) (nnn : Z) :
  length (stack s) = 16%nat ->
  (stack_pointer s = 0 ->
   ret s = Raise SystemExit (set_stack_pointer (-1) s) /\
   terminates_process (ret s)) /\
  (stack_pointer s = 16 -> call nnn s = Raise IndexError s) /\
  ~ terminates_process (call nnn s).
Proof.
  intros Hlen. split; [|split].
  - intros Hsp. unfold terminates_process, ret. py_simpl. state_simpl.
    rewrite Hsp. split; reflexivity.
  - intros Hsp. unfold call. py_simpl.
    unfold setitem, py_index. rewrite Hlen, Hsp. reflexivity.
  - unfold terminates_process.
    destruct (call_raises_only_IndexError s nnn) as [H|H];
      rewrite H; discriminate.
Qed.

(** Underflow on the fresh interpreter, overflow on it with the stack
    pointer moved to 16. *)
Lemma stack_fault_outcomes_witness :
  (ret init = Raise SystemExit (set_stack_pointer (-1) init) /\
   terminates_process (ret init)) /\
  call 0x300 (set_stack_pointer 16 init) =
    Raise IndexError (set_stack_pointer 16 init) /\
  ~ terminates_process (call 0x300 (set_stack_pointer 16 init)).
Proof.
  split; [|split].
  - apply (stack_fault_outcomes init 0x300); reflexivity.
  - apply (stack_fault_outcomes (set_stack_pointer 16 init) 0x300); reflexivity.
  - apply (stack_fault_outcomes (set_stack_pointer 16 init) 0x300); reflexivity.
Defined.

(** ** Flag and result in the same register *)

(** The flag write of the three flag-setting instructions. *)
Lemma put_flag_ok (s : Chip8) (c : bool) :
  length (registers s) = 16%nat ->
  (if c then put_register 0xF 1 else put_register 0xF 0) s =
  Return tt (set_registers (<[15%nat:=int_of_bool c]> (registers s)) s).
Proof.
  intros Hlen. destruct c; apply (put_register_ok s 15); (assumption || lia).
Qed.

(** A register read after the flag write. *)
Lemma reg_after_flag (s : Chip8) (flag vy : Z) :
  length (registers s) = 16%nat -> 0 <= vy < 16 ->
  reg (set_registers (<[15%nat:=flag]> (registers s)) s) vy =
  if vy =? 0xF then flag else reg s vy.
Proof.
  intros Hlen Hvy. destruct (Z.eqb_spec vy 0xF) as [->|Hne].
  - apply (reg_put_eq s 15); (assumption || lia).
  - apply (reg_put_ne s 15); (assumption || lia).
Qed.

Lemma reg_set_program_counter (s : Chip8) (pc i : Z) :
  reg (set_program_counter pc s) i = reg s i.
Proof. reflexivity. Qed.

(** The three instructions in closed form: the flag goes to [VF] first, the
    result to [Vx] second; the subtractions read their operands again after
    the flag write. *)
Lemma add_xy_run (s : Chip8) (vx vy : Z) :
  length (registers s) = 16%nat -> 0 <= vx < 16 -> 0 <= vy < 16 ->
  let num := reg s vx + reg s vy in
  let s1 := set_registers
              (<[15%nat:=int_of_bool (255 <? num)]> (registers s)) s in
  add_xy vx vy s =
  Return tt (set_program_counter (program_counter s + 2)
               (set_registers (<[Z.to_nat vx:=num]> (registers s1)) s1)).
Proof.
  intros Hlen Hvx Hvy num s1. unfold add_xy. py_simpl.
  rewrite !get_register_ok by assumption.
  fold num. rewrite put_flag_ok by assumption. fold s1.
  assert (Hlen1 : length (registers s1) = 16%nat)
    by (subst s1; rewrite length_put; assumption).
  rewrite put_register_ok by assumption. reflexivity.
Qed.

Lemma sub_xy_run (s : Chip8) (vx vy : Z) :
  length (registers s) = 16%nat -> 0 <= vx < 16 -> 0 <= vy < 16 ->
  let s1 := set_registers
              (<[15%nat:=int_of_bool (reg s vy <? reg s vx)]> (registers s)) s in
  sub_xy vx vy s =
  Return tt (set_program_counter (program_counter s + 2)
               (set_registers
                  (<[Z.to_nat vx:=reg s1 vx - reg s1 vy]> (registers s1)) s1)).
Proof.
  intros Hlen Hvx Hvy s1. unfold sub_xy. py_simpl.
  rewrite !get_register_ok by assumption.
  rewrite put_flag_ok by assumption. fold s1.
  assert (Hlen1 : length (registers s1) = 16%nat)
    by (subst s1; rewrite length_put; assumption).
  rewrite !get_register_ok by assumption.
  rewrite put_register_ok by assumption. reflexivity.
Qed.

Lemma sub_yx_run (s : Chip8) (vx vy : Z) :
  length (registers s) = 16%nat -> 0 <= vx < 16 -> 0 <= vy < 16 ->
  let s1 := set_registers
              (<[15%nat:=int_of_bool (reg s vx <? reg s vy)]> (registers s)) s in
  sub_yx vx vy s =
  Return tt (set_program_counter (program_counter s + 2)
               (set_registers
                  (<[Z.to_nat vx:=reg s1 vy - reg s1 vx]> (registers s1)) s1)).
Proof.
  intros Hlen Hvx Hvy s1. unfold sub_yx. py_simpl.
  rewrite !get_register_ok by assumption.
  rewrite put_flag_ok by assumption. fold s1.
  assert (Hlen1 : length (registers s1) = 16%nat)
    by (subst s1; rewrite length_put; assumption).
  rewrite !get_register_ok by assumption.
  rewrite put_register_ok by assumption. reflexivity.
Qed.

(** C4, as stated, fails for each of the three instructions when the
    destination is [VF], on operands whose result is itself an 8-bit value.
    With [VF = 3], [V0 = 4], [add_xy 0xF 0] has carry 0 and leaves 7 in [VF];
    with [VF = 9], [V0 = 1], [sub_xy 0xF 0] has flag 1 and leaves 0 in [VF];
    with [VF = 4], [V0 = 9], [sub_yx 0xF 0] has flag 1 and leaves 8 in
    [VF]. *)
Lemma flag_lost_when_vx_is_vf :
  (let s := with_registers 4 0 3 init in
   exists s', add_xy 0xF 0 s = Return tt s' /\
     int_of_bool (255 <? reg s 0xF + reg s 0) = 0 /\ reg s' 0xF = 7) /\
  (let s := with_registers 1 0 9 init in
   exists s', sub_xy 0xF 0 s = Return tt s' /\
     int_of_bool (reg s 0 <? reg s 0xF) = 1 /\ reg s' 0xF = 0) /\
  (let s := with_registers 9 0 4 init in
   exists s', sub_yx 0xF 0 s = Return tt s' /\
     int_of_bool (reg s 0xF <? reg s 0) = 1 /\ reg s' 0xF = 8).
Proof.
  repeat split; eexists; (split; [vm_compute; reflexivity|]);
    split; reflexivity.
Qed.

(** C4, amended.  The flag is written first and the arithmetic result last.
    So when the destination index is 0xF, on a sixteen-register file and for
    every source index [vy] in 0..15, each of the three instructions returns
    normally and the low eight bits of [VF] afterwards are those of the
    arithmetic result, not the flag: for 8xy4 of the sum [VF + Vy] of the
    operands as they were before the instruction; for 8xy5 of [flag - Vy']
    and for 8xy7 of [Vy' - flag], where [flag] is the bit computed from the
    operands as they were before the instruction ([Vx > Vy], respectively
    [Vy > Vx]) and [Vy'] is the source read again after the flag write, that
    is [Vy], or [flag] when [vy] is 0xF too. *)
Theorem result_overwrites_flag (s : Chip8) (vy : Z) :
  length (registers s) = 16%nat -> 0 <= vy < 16 ->
  (exists s1, add_xy 0xF vy s = Return tt s1 /\
     reg s1 0xF mod 256 = (reg s 0xF + reg s vy) mod 256) /\
  (exists s2, sub_xy 0xF vy s = Return tt s2 /\
     let flag := int_of_bool (reg s vy <? reg s 0xF) in
     reg s2 0xF mod 256 =
       (flag - (if vy =? 0xF then flag else reg s vy)) mod 256) /\
  (exists s3, sub_yx 0xF vy s = Return tt s3 /\
     let flag := int_of_bool (reg s 0xF <? reg s vy) in
     reg s3 0xF mod 256 =
       ((if vy =? 0xF then flag else reg s vy) - flag) mod 256).
Proof.
  intros Hlen Hvy.
  assert (HF : 0 <= 0xF < 16) by lia.
  split; [|split]; eexists;
    (split;
     [first [apply add_xy_run | apply sub_xy_run | apply sub_yx_run];
      assumption|]);
    cbv zeta; rewrite reg_set_program_counter;
    rewrite (reg_put_eq _ 0xF) by (rewrite ?length_put; assumption);
    rewrite ?reg_after_flag by assumption; reflexivity.
Qed.

(** The three instructions with destination [VF] and source [V0] on the
    fresh interpreter with [V0 = 4], [VF = 9]. *)
Lemma result_overwrites_flag_witness :
  let s := with_registers 4 0 9 init in
  (exists s1, add_xy 0xF 0 s = Return tt s1 /\
     reg s1 0xF mod 256 = (reg s 0xF + reg s 0) mod 256) /\
  (exists s2, sub_xy 0xF 0 s = Return tt s2 /\
     let flag := int_of_bool (reg s 0 <? reg s 0xF) in
     reg s2 0xF mod 256 =
       (flag - (if 0 =? 0xF then flag else reg s 0)) mod 256) /\
  (exists s3, sub_yx 0xF 0 s = Return tt s3 /\
     let flag := int_of_bool (reg s 0xF <? reg s 0) in
     reg s3 0xF mod 256 =
       ((if 0 =? 0xF then flag else reg s 0) - flag) mod 256).
Proof.
  apply (result_overwrites_flag (with_registers 4 0 9 init) 0);
    [reflexivity | lia].
Defined.

(** ** Timers and the cycle *)

Lemma decrement_timers_run (s : Chip8) :
  exists s', decrement_timers s = Return tt s' /\
    delay_timer s' = tick (delay_timer s) /\
    sound_timer s' = tick (sound_timer s).
Proof.
  unfold decrement_timers, tick. py_simpl.
  destruct (0 <? delay_timer s); state_simpl;
    destruct (0 <? sound_timer s); eexists; repeat split.
Qed.

(** As the class stands, [cycle] stops in [get_instruction]. *)
Lemma cycle_raises (s : Chip8) : cycle s = Raise TypeError s.
Proof. reflexivity. Qed.

Section CycleTimers.

Variable fetch : M Z.
Variable execute : Z -> M unit.
Hypothesis fetch_keeps : keeps_timers fetch.
Hypothesis execute_keeps : forall i, keeps_timers (execute i).

Lemma cycle_with_ticks (s : Chip8) :
  exists s', cycle_with fetch execute s = Return tt s' /\
    delay_timer s' = tick (delay_timer s) /\
    sound_timer s' = tick (sound_timer s).
Proof.
  unfold cycle_with, bind, logger_debug, ret_.
  destruct (fetch_keeps s) as (i & s1 & -> & Hd1 & Hs1).
  destruct (execute_keeps i s1) as ([] & s2 & -> & Hd2 & Hs2).
  destruct (decrement_timers_run s2) as (s3 & -> & Hd3 & Hs3).
  exists s3. split; [reflexivity|]. split; congruence.
Qed.

Lemma run_cycles_ticks (n : nat) :
  forall s, 0 <= delay_timer s -> 0 <= sound_timer s ->
  exists s', run_cycles fetch execute n s = Return tt s' /\
    delay_timer s' = Z.max 0 (delay_timer s - Z.of_nat n) /\
    sound_timer s' = Z.max 0 (sound_timer s - Z.of_nat n).
Proof.
  induction n as [|k IH]; intros s Hd Hs.
  - exists s. split; [reflexivity|]. simpl. lia.
  - destruct (cycle_with_ticks s) as (s1 & Hrun & Hd1 & Hs1).
    assert (Hd1' : 0 <= delay_timer s1)
      by (rewrite Hd1; unfold tick; destruct (Z.ltb_spec 0 (delay_timer s)); lia).
    assert (Hs1' : 0 <= sound_timer s1)
      by (rewrite Hs1; unfold tick; destruct (Z.ltb_spec 0 (sound_timer s)); lia).
    destruct (IH s1 Hd1' Hs1') as (s' & Hrest & Hd' & Hs').
    exists s'. split.
    + cbn [run_cycles]. unfold bind at 1. rewrite Hrun. exact Hrest.
    + rewrite Hd', Hs', Hd1, Hs1. unfold tick.
      destruct (Z.ltb_spec 0 (delay_timer s));
        destruct (Z.ltb_spec 0 (sound_timer s)); lia.
Qed.

End CycleTimers.

Lemma fetch_idle_keeps : keeps_timers fetch_idle.
Proof. intros s. exists 0, s. repeat split. Qed.

Lemma execute_idle_keeps (i : Z) : keeps_timers (execute_idle i).
Proof. intros s. exists tt, s. repeat split. Qed.

(** C2, as stated, fails.  Take the fresh interpreter with both timers at
    255.  With the class's own [get_instruction], a run of 1000 cycles ends
    in the first one with [TypeError] and both timers still at 255; with a
    decoder and executor that return, the 1000 cycles bring both timers to 0.
    Neither is 254, the value after a decrement by exactly 1. *)
Lemma thousand_cycles_drain_timers :
  let s := set_sound_timer 255 (set_delay_timer 255 init) in
  run_cycles get_instruction execute_instruction 1000 s = Raise TypeError s /\
  exists s',
    run_cycles fetch_idle execute_idle 1000 s = Return tt s' /\
    delay_timer s' = 0 /\ sound_timer s' = 0 /\
    delay_timer s' <> delay_timer s - 1 /\
    sound_timer s' <> sound_timer s - 1.
Proof.
  split; [reflexivity|].
  eexists. split; [vm_compute; reflexivity|].
  repeat split; vm_compute; discriminate.
Qed.

(** C2, amended.  The timers are tied to the cycle rate: [cycle] decrements
    each positive timer itself, once per call.  For every decoder and
    executor that return normally and leave the timers alone, and from every
    state with non-negative timers, [n] consecutive cycles all return and
    take a timer [t] to [max 0 (t - n)].  As the class stands, its
    [get_instruction] raises [TypeError], so [cycle] raises before it reads a
    timer and the object is left as it was. *)
Theorem timers_tick_once_per_cycle
    (fetch : M Z) (execute : Z -> M unit) (n : nat) (s : Chip8) :
  keeps_timers fetch -> (forall i, keeps_timers (execute i)) ->
  0 <= delay_timer s -> 0 <= sound_timer s ->
  (exists s', run_cycles fetch execute n s = Return tt s' /\
     delay_timer s' = Z.max 0 (delay_timer s - Z.of_nat n) /\
     sound_timer s' = Z.max 0 (sound_timer s - Z.of_nat n)) /\
  cycle s = Raise TypeError s.
Proof.
  intros Hf He Hd Hs. split.
  - apply run_cycles_ticks; assumption.
  - apply cycle_raises.
Qed.

(** Seven cycles of the idle decoder and executor from timers at 255. *)
Lemma timers_tick_once_per_cycle_witness :
  let s := set_sound_timer 255 (set_delay_timer 255 init) in
  (exists s', run_cycles fetch_idle execute_idle 7 s = Return tt s' /\
     delay_timer s' = Z.max 0 (delay_timer s - Z.of_nat 7) /\
     sound_timer s' = Z.max 0 (sound_timer s - Z.of_nat 7)) /\
  cycle s = Raise TypeError s.
Proof.
  apply (timers_tick_once_per_cycle fetch_idle execute_idle 7
           (set_sound_timer 255 (set_delay_timer 255 init)));
    [exact fetch_idle_keeps | exact execute_idle_keeps
     | simpl; lia | simpl; lia].
Defined.

(** * Further properties of the handlers *)

(** ** Eight-bit values *)

Lemma byte_shiftr (x : Z) : 0 <= x <= 255 <-> Z.shiftr x 8 = 0.
Proof.
  rewrite Z.shiftr_div_pow2 by lia. change (2 ^ 8) with 256. split.
  - intros H. apply Z.div_small. lia.
  - intros H. apply Z.div_small_iff in H; lia.
Qed.

Lemma byte_lor (x y : Z) :
  0 <= x <= 255 -> 0 <= y <= 255 -> 0 <= Z.lor x y <= 255.
Proof.
  rewrite !byte_shiftr, Z.shiftr_lor. intros -> ->. reflexivity.
Qed.

Lemma byte_lxor (x y : Z) :
  0 <= x <= 255 -> 0 <= y <= 255 -> 0 <= Z.lxor x y <= 255.
Proof.
  rewrite !byte_shiftr, Z.shiftr_lxor. intros -> ->. reflexivity.
Qed.

(** One 8-bit operand is enough for [&]. *)
Lemma byte_land_r (x y : Z) : 0 <= y <= 255 -> 0 <= Z.land x y <= 255.
Proof.
  rewrite !byte_shiftr, Z.shiftr_land. intros ->. apply Z.land_0_r.
Qed.

Lemma byte_land_l (x y : Z) : 0 <= x <= 255 -> 0 <= Z.land x y <= 255.
Proof. rewrite Z.land_comm. apply byte_land_r. Qed.

Lemma byte_shiftr_1 (x : Z) : 0 <= x <= 255 -> 0 <= Z.shiftr x 1 <= 255.
Proof.
  intros H. rewrite Z.shiftr_div_pow2 by lia. change (2 ^ 1) with 2.
  split; [apply Z.div_pos; lia|].
  apply Z.div_le_upper_bound; lia.
Qed.

Lemma land_1_mod (x : Z) : Z.land x 1 = x mod 2.
Proof. exact (Z.land_ones x 1 ltac:(lia)). Qed.

(** ** Registers of an 8-bit file *)

Lemma reg_lookup (s : Chip8) (vx : Z) :
  length (registers s) = 16%nat -> 0 <= vx < 16 ->
  registers s !! Z.to_nat vx = Some (reg s vx).
Proof.
  intros Hlen Hvx. unfold reg.
  destruct (getitem_is_Some (registers s) vx) as [x Hx]; [lia|].
  rewrite Hx. rewrite getitem_nonneg in Hx by lia. exact Hx.
Qed.

Lemma reg_8bit (s : Chip8) (vx : Z) :
  length (registers s) = 16%nat -> 0 <= vx < 16 ->
  registers_8bit s -> 0 <= reg s vx <= 255.
Proof.
  intros Hlen Hvx Hall.
  exact (proj1 (Forall_lookup _ _) Hall _ _ (reg_lookup s vx Hlen Hvx)).
Qed.

Lemma registers_8bit_put (s : Chip8) (n : nat) (v : Z) :
  registers_8bit s -> 0 <= v <= 255 ->
  registers_8bit (set_registers (<[n:=v]> (registers s)) s).
Proof.
  intros Hall Hv. unfold registers_8bit. simpl.
  apply Forall_insert; assumption.
Qed.

Lemma registers_8bit_put_iff (s : Chip8) (vx v : Z) :
  length (registers s) = 16%nat -> 0 <= vx < 16 -> registers_8bit s ->
  registers_8bit (set_registers (<[Z.to_nat vx:=v]> (registers s)) s) <->
  0 <= v <= 255.
Proof.
  intros Hlen Hvx Hall. split; [|apply registers_8bit_put; assumption].
  intros Hall'.
  apply (proj1 (Forall_lookup _ _) Hall' (Z.to_nat vx) v).
  simpl. apply list_lookup_insert_eq. lia.
Qed.

Lemma registers_8bit_set_program_counter (s : Chip8) (pc : Z) :
  registers_8bit (set_program_counter pc s) <-> registers_8bit s.
Proof. reflexivity. Qed.

Lemma with_registers_8bit (a b f : Z) :
  0 <= a <= 255 -> 0 <= b <= 255 -> 0 <= f <= 255 ->
  registers_8bit (with_registers a b f init).
Proof.
  intros Ha Hb Hf. unfold registers_8bit, with_registers.
  cbn [registers set_registers].
  repeat apply Forall_insert; try assumption.
  change (registers init) with (replicate 16 0). apply Forall_replicate. lia.
Qed.

(** ** Closed forms of the one-write handlers *)

Ltac run_registers :=
  py_simpl;
  repeat first [ rewrite get_register_ok by assumption
               | rewrite put_register_ok by assumption ];
  reflexivity.

Lemma load_run (s : Chip8) (vx kk : Z) :
  length (registers s) = 16%nat -> 0 <= vx < 16 ->
  load vx kk s =
  Return tt (set_program_counter (program_counter s + 2)
               (set_registers (<[Z.to_nat vx:=kk]> (registers s)) s)).
Proof. intros Hlen Hvx. unfold load. run_registers. Qed.

Lemma add_run (s : Chip8) (vx kk : Z) :
  length (registers s) = 16%nat -> 0 <= vx < 16 ->
  add vx kk s =
  Return tt (set_program_counter (program_counter s + 2)
               (set_registers (<[Z.to_nat vx:=reg s vx + kk]> (registers s)) s)).
Proof. intros Hlen Hvx. unfold add. run_registers. Qed.

Lemma load_xy_run (s : Chip8) (vx vy : Z) :
  length (registers s) = 16%nat -> 0 <= vx < 16 -> 0 <= vy < 16 ->
  load_xy vx vy s =
  Return tt (set_program_counter (program_counter s + 2)
               (set_registers (<[Z.to_nat vx:=reg s vy]> (registers s)) s)).
Proof. intros Hlen Hvx Hvy. unfold load_xy. run_registers. Qed.

Lemma or_xy_run (s : Chip8) (vx vy : Z) :
  length (registers s) = 16%nat -> 0 <= vx < 16 -> 0 <= vy < 16 ->
  or_xy vx vy s =
  Return tt (set_program_counter (program_counter s + 2)
               (set_registers
                  (<[Z.to_nat vx:=Z.lor (reg s vx) (reg s vy)]> (registers s)) s)).
Proof. intros Hlen Hvx Hvy. unfold or_xy. run_registers. Qed.

Lemma and_xy_run (s : Chip8) (vx vy : Z) :
  length (registers s) = 16%nat -> 0 <= vx < 16 -> 0 <= vy < 16 ->
  and_xy vx vy s =
  Return tt (set_program_counter (program_counter s + 2)
               (set_registers
                  (<[Z.to_nat vx:=Z.land (reg s vx) (reg s vy)]> (registers s)) s)).
Proof. intros Hlen Hvx Hvy. unfold and_xy. run_registers. Qed.

Lemma x_or_xy_run (s : Chip8) (vx vy : Z) :
  length (registers s) = 16%nat -> 0 <= vx < 16 -> 0 <= vy < 16 ->
  x_or_xy vx vy s =
  Return tt (set_program_counter (program_counter s + 2)
               (set_registers
                  (<[Z.to_nat vx:=Z.lxor (reg s vx) (reg s vy)]> (registers s)) s)).
Proof. intros Hlen Hvx Hvy. unfold x_or_xy. run_registers. Qed.

Lemma rand_run (s : Chip8) (r vx kk : Z) :
  length (registers s) = 16%nat -> 0 <= vx < 16 ->
  rand r vx kk s =
  Return tt (set_program_counter (program_counter s + 2)
               (set_registers (<[Z.to_nat vx:=Z.land kk r]> (registers s)) s)).
Proof. intros Hlen Hvx. unfold rand. run_registers. Qed.

Lemma load_xdt_run (s : Chip8) (vx : Z) :
  length (registers s) = 16%nat -> 0 <= vx < 16 ->
  load_xdt vx s =
  Return tt (set_program_counter (program_counter s + 2)
               (set_registers (<[Z.to_nat vx:=delay_timer s]> (registers s)) s)).
Proof. intros Hlen Hvx. unfold load_xdt. run_registers. Qed.

Lemma load_dtx_run (s : Chip8) (vx : Z) :
  length (registers s) = 16%nat -> 0 <= vx < 16 ->
  load_dtx vx s =
  Return tt (set_program_counter (program_counter s + 2)
               (set_delay_timer (reg s vx) s)).
Proof. intros Hlen Hvx. unfold load_dtx. run_registers. Qed.

Lemma load_ix_run (s : Chip8) (vx : Z) :
  length (registers s) = 16%nat -> 0 <= vx < 16 ->
  load_ix vx s =
  Return tt (set_program_counter (program_counter s + 2)
               (set_address_register (reg s vx * 5) s)).
Proof. intros Hlen Hvx. unfold load_ix. run_registers. Qed.

(** The two shifts write the flag first and read [Vx] again. *)
Lemma shift_right_run (s : Chip8) (vx : Z) :
  length (registers s) = 16%nat -> 0 <= vx < 16 ->
  let s1 := set_registers (<[15%nat:=Z.land (reg s vx) 1]> (registers s)) s in
  shift_right vx s =
  Return tt (set_program_counter (program_counter s + 2)
               (set_registers
                  (<[Z.to_nat vx:=Z.shiftr (reg s1 vx) 1]> (registers s1)) s1)).
Proof.
  intros Hlen Hvx s1. unfold shift_right. py_simpl.
  rewrite get_register_ok by assumption.
  rewrite (put_register_ok s 15) by (assumption || lia).
  change (Z.to_nat 15) with 15%nat. fold s1.
  assert (Hlen1 : length (registers s1) = 16%nat)
    by (subst s1; rewrite length_put; assumption).
  rewrite get_register_ok by assumption.
  rewrite put_register_ok by assumption. reflexivity.
Qed.

Lemma shift_left_run (s : Chip8) (vx : Z) :
  length (registers s) = 16%nat -> 0 <= vx < 16 ->
  let s1 := set_registers
              (<[15%nat:=Z.land (Z.shiftr (reg s vx) 7) 1]> (registers s)) s in
  shift_left vx s =
  Return tt (set_program_counter (program_counter s + 2)
               (set_registers
                  (<[Z.to_nat vx:=Z.shiftl (reg s1 vx) 1]> (registers s1)) s1)).
Proof.
  intros Hlen Hvx s1. unfold shift_left. py_simpl.
  rewrite get_register_ok by assumption.
  rewrite (put_register_ok s 15) by (assumption || lia).
  change (Z.to_nat 15) with 15%nat. fold s1.
  assert (Hlen1 : length (registers s1) = 16%nat)
    by (subst s1; rewrite length_put; assumption).
  rewrite get_register_ok by assumption.
  rewrite put_register_ok by assumption. reflexivity.
Qed.

(** ** Handlers that keep the registers 8-bit *)

(** X1.  The copy, the three bitwise operations, the right shift and the random
    draw, run on a sixteen-register file of 8-bit values with indices in
    0..15, return normally and leave a file of 8-bit values; for [rand] the
    draw [r] is in 0..255 as [randint(0, 255)] makes it, and the mask [kk] is
    any integer. *)
Theorem bitwise_handlers_keep_8bit (s : Chip8) (vx vy kk r : Z) :
  length (registers s) = 16%nat -> 0 <= vx < 16 -> 0 <= vy < 16 ->
  0 <= r <= 255 -> registers_8bit s ->
  (exists s', load_xy vx vy s = Return tt s' /\ registers_8bit s') /\
  (exists s', or_xy vx vy s = Return tt s' /\ registers_8bit s') /\
  (exists s', and_xy vx vy s = Return tt s' /\ registers_8bit s') /\
  (exists s', x_or_xy vx vy s = Return tt s' /\ registers_8bit s') /\
  (exists s', shift_right vx s = Return tt s' /\ registers_8bit s') /\
  (exists s', rand r vx kk s = Return tt s' /\ registers_8bit s').
Proof.
  intros Hlen Hvx Hvy Hr Hall.
  pose proof (reg_8bit s vx Hlen Hvx Hall) as Hx.
  pose proof (reg_8bit s vy Hlen Hvy Hall) as Hy.
  repeat split.
  - eexists. split; [apply load_xy_run; assumption|].
    apply registers_8bit_put; assumption.
  - eexists. split; [apply or_xy_run; assumption|].
    apply registers_8bit_put; [assumption | apply byte_lor; assumption].
  - eexists. split; [apply and_xy_run; assumption|].
    apply registers_8bit_put; [assumption | apply byte_land_l; assumption].
  - eexists. split; [apply x_or_xy_run; assumption|].
    apply registers_8bit_put; [assumption | apply byte_lxor; assumption].
  - eexists. split; [apply shift_right_run; assumption|].
    assert (Hflag : 0 <= Z.land (reg s vx) 1 <= 255)
      by (apply byte_land_l; assumption).
    pose proof (registers_8bit_put s 15 _ Hall Hflag) as Hall1.
    apply registers_8bit_set_program_counter.
    apply registers_8bit_put; [assumption|].
    apply byte_shiftr_1. apply reg_8bit; [|assumption|assumption].
    rewrite length_put. assumption.
  - eexists. split; [apply rand_run; assumption|].
    apply registers_8bit_put; [assumption | apply byte_land_r; assumption].
Qed.

(** The six handlers on [V0 = 0xF0], [V1 = 0x3C], with a wide mask for the
    random draw. *)
Lemma bitwise_handlers_keep_8bit_witness :
  let s := with_registers 0xF0 0x3C 0 init in
  (exists s', load_xy 0 1 s = Return tt s' /\ registers_8bit s') /\
  (exists s', or_xy 0 1 s = Return tt s' /\ registers_8bit s') /\
  (exists s', and_xy 0 1 s = Return tt s' /\ registers_8bit s') /\
  (exists s', x_or_xy 0 1 s = Return tt s' /\ registers_8bit s') /\
  (exists s', shift_right 0 s = Return tt s' /\ registers_8bit s') /\
  (exists s', rand 0xAB 0 0x1FF s = Return tt s' /\ registers_8bit s').
Proof.
  apply (bitwise_handlers_keep_8bit (with_registers 0xF0 0x3C 0 init)
           0 1 0x1FF 0xAB);
    [reflexivity | lia | lia | lia | apply with_registers_8bit; lia].
Defined.

(** ** Exclusive or *)

(** X2.  [x_or_xy] twice with the same two distinct registers gives the register
    file back, with the program counter 4 further; with the same register on
    both sides it clears that register. *)
Theorem x_or_xy_twice_restores (s : Chip8) (vx vy : Z) :
  length (registers s) = 16%nat -> 0 <= vx < 16 -> 0 <= vy < 16 ->
  vx <> vy ->
  (exists s1 s2,
     x_or_xy vx vy s = Return tt s1 /\ x_or_xy vx vy s1 = Return tt s2 /\
     registers s2 = registers s /\
     program_counter s2 = program_counter s + 4) /\
  (exists s', x_or_xy vx vx s = Return tt s' /\ reg s' vx = 0).
Proof.
  intros Hlen Hvx Hvy Hne. split.
  - eexists. eexists. split; [apply x_or_xy_run; assumption|].
    split; [apply x_or_xy_run; try assumption;
            cbn [registers set_program_counter set_registers];
            rewrite length_insert; assumption|].
    split.
    + cbn [registers set_program_counter set_registers].
      rewrite !reg_set_program_counter.
      rewrite reg_put_eq, reg_put_ne by assumption.
      rewrite list_insert_insert_eq.
      rewrite Z.lxor_assoc, Z.lxor_nilpotent, Z.lxor_0_r.
      apply list_insert_id. apply reg_lookup; assumption.
    + cbn [program_counter set_program_counter set_registers]. lia.
  - eexists. split; [apply x_or_xy_run; assumption|].
    rewrite reg_set_program_counter, reg_put_eq by assumption.
    apply Z.lxor_nilpotent.
Qed.

(** [V0 = 0xF0], [V1 = 0x3C]. *)
Lemma x_or_xy_twice_restores_witness :
  let s := with_registers 0xF0 0x3C 0 init in
  (exists s1 s2,
     x_or_xy 0 1 s = Return tt s1 /\ x_or_xy 0 1 s1 = Return tt s2 /\
     registers s2 = registers s /\
     program_counter s2 = program_counter s + 4) /\
  (exists s', x_or_xy 0 0 s = Return tt s' /\ reg s' 0 = 0).
Proof.
  apply (x_or_xy_twice_restores (with_registers 0xF0 0x3C 0 init) 0 1);
    [reflexivity | lia | lia | lia].
Defined.

(** ** The right shift *)

(** X3.  [shift_right] on a general register (index 0..14) splits its value, any
    integer, into the low bit, which goes to [VF], and the rest, which stays
    in [Vx]: twice the new [Vx] plus the new [VF] is the old [Vx]; the other
    fourteen registers keep their values and the program counter grows by
    2.  On [VF] itself the result is always 0: the flag replaces the value
    before the shift reads it. *)
Theorem shift_right_splits (s : Chip8) (vx : Z) :
  length (registers s) = 16%nat -> 0 <= vx < 15 ->
  (exists s',
     shift_right vx s = Return tt s' /\
     reg s' 0xF = reg s vx mod 2 /\ reg s' vx = reg s vx / 2 /\
     2 * reg s' vx + reg s' 0xF = reg s vx /\
     (forall i, 0 <= i < 15 -> i <> vx -> reg s' i = reg s i) /\
     program_counter s' = program_counter s + 2) /\
  (exists s', shift_right 0xF s = Return tt s' /\ reg s' 0xF = 0).
Proof.
  intros Hlen Hvx.
  assert (HF : 0 <= 0xF < 16) by lia.
  assert (Hvx' : 0 <= vx < 16) by lia.
  split.
  - eexists. split; [apply shift_right_run; assumption|]. cbv zeta.
    set (s1 := set_registers (<[15%nat:=Z.land (reg s vx) 1]> (registers s)) s).
    assert (Hlen1 : length (registers s1) = 16%nat)
      by (subst s1; rewrite length_put; assumption).
    assert (H1 : forall i, 0 <= i < 16 ->
                   reg s1 i = if i =? 0xF then Z.land (reg s vx) 1 else reg s i)
      by (intros i Hi; apply reg_after_flag; assumption).
    assert (Hx1 : reg s1 vx = reg s vx).
    { rewrite H1 by assumption. destruct (Z.eqb_spec vx 0xF); [lia|reflexivity]. }
    assert (Hflag : reg s1 0xF = reg s vx mod 2).
    { rewrite H1 by assumption. apply land_1_mod. }
    rewrite !reg_set_program_counter.
    rewrite (reg_put_ne s1 vx 0xF) by (assumption || lia).
    rewrite (reg_put_eq s1 vx) by assumption.
    rewrite Hx1, Hflag, Z.shiftr_div_pow2 by lia. change (2 ^ 1) with 2.
    repeat split.
    + pose proof (Z.div_mod (reg s vx) 2). lia.
    + intros i Hi Hne. rewrite reg_set_program_counter.
      rewrite (reg_put_ne s1 vx i) by (assumption || lia).
      rewrite H1 by lia. destruct (Z.eqb_spec i 0xF); [lia|reflexivity].
  - eexists. split; [apply shift_right_run; assumption|]. cbv zeta.
    rewrite reg_set_program_counter.
    rewrite (reg_put_eq _ 0xF) by (rewrite ?length_put; assumption).
    rewrite reg_after_flag by assumption. change (0xF =? 0xF) with true.
    cbv iota. rewrite land_1_mod, Z.shiftr_div_pow2 by lia.
    change (2 ^ 1) with 2. apply Z.div_small.
    apply Z.mod_pos_bound. lia.
Qed.

(** [V0 = 7]: the low bit 1 goes to [VF] and 3 stays. *)
Lemma shift_right_splits_witness :
  let s := with_registers 7 0 0 init in
  (exists s',
     shift_right 0 s = Return tt s' /\
     reg s' 0xF = reg s 0 mod 2 /\ reg s' 0 = reg s 0 / 2 /\
     2 * reg s' 0 + reg s' 0xF = reg s 0 /\
     (forall i, 0 <= i < 15 -> i <> 0 -> reg s' i = reg s i) /\
     program_counter s' = program_counter s + 2) /\
  (exists s', shift_right 0xF s = Return tt s' /\ reg s' 0xF = 0).
Proof.
  apply (shift_right_splits (with_registers 7 0 0 init) 0);
    [reflexivity | lia].
Defined.

(** ** When the arithmetic handlers stay 8-bit *)

Lemma carry_bit (n : Z) :
  0 <= n <= 510 -> int_of_bool (255 <? n) = n / 256.
Proof.
  intros Hn. unfold int_of_bool. destruct (Z.ltb_spec 255 n).
  - apply Z.div_unique with (r := n - 256); lia.
  - symmetry. apply Z.div_small. lia.
Qed.

(** X4.  On a sixteen-register file of 8-bit values, with a general destination
    (index 0..14): [add] with an 8-bit immediate leaves an 8-bit file exactly
    when the sum is at most 255; [add_xy] leaves the whole sum in [Vx] and
    the carry [sum / 256] in [VF], and [shift_left] leaves the double in
    [Vx] and bit 7 in [VF]; either leaves an 8-bit file exactly when the
    flag it set is 0. *)
Theorem sums_fit_iff_no_carry (s : Chip8) (vx vy kk : Z) :
  length (registers s) = 16%nat -> 0 <= vx < 15 -> 0 <= vy < 16 ->
  0 <= kk <= 255 -> registers_8bit s ->
  (exists s', add vx kk s = Return tt s' /\
     reg s' vx = reg s vx + kk /\
     (registers_8bit s' <-> reg s vx + kk <= 255)) /\
  (exists s', add_xy vx vy s = Return tt s' /\
     reg s' vx = reg s vx + reg s vy /\
     reg s' 0xF = (reg s vx + reg s vy) / 256 /\
     (registers_8bit s' <-> reg s' 0xF = 0)) /\
  (exists s', shift_left vx s = Return tt s' /\
     reg s' vx = 2 * reg s vx /\
     reg s' 0xF = reg s vx / 128 /\
     (registers_8bit s' <-> reg s' 0xF = 0)).
Proof.
  intros Hlen Hvx Hvy Hkk Hall.
  assert (Hvx' : 0 <= vx < 16) by lia.
  assert (HF : 0 <= 0xF < 16) by lia.
  pose proof (reg_8bit s vx Hlen Hvx' Hall) as Hx.
  pose proof (reg_8bit s vy Hlen Hvy Hall) as Hy.
  split; [|split].
  - eexists. split; [apply add_run; assumption|].
    rewrite reg_set_program_counter, registers_8bit_set_program_counter.
    rewrite reg_put_eq, registers_8bit_put_iff by assumption.
    split; [reflexivity | lia].
  - eexists. split; [apply add_xy_run; assumption|]. cbv zeta.
    set (num := reg s vx + reg s vy).
    set (flag := int_of_bool (255 <? num)).
    set (s1 := set_registers (<[15%nat:=flag]> (registers s)) s).
    assert (Hflag : flag = num / 256)
      by (apply carry_bit; subst num; lia).
    assert (Hflag01 : 0 <= flag <= 255)
      by (subst flag; unfold int_of_bool; destruct (255 <? num); lia).
    assert (Hlen1 : length (registers s1) = 16%nat)
      by (subst s1; rewrite length_put; assumption).
    assert (Hall1 : registers_8bit s1)
      by (apply registers_8bit_put; assumption).
    rewrite !reg_set_program_counter, registers_8bit_set_program_counter.
    rewrite (reg_put_eq s1 vx), (reg_put_ne s1 vx 0xF) by (assumption || lia).
    rewrite (registers_8bit_put_iff s1 vx) by assumption.
    replace (reg s1 0xF) with flag
      by (subst s1; symmetry; apply (reg_put_eq s 0xF); assumption).
    split; [reflexivity|]. split; [assumption|].
    subst flag. unfold int_of_bool. destruct (Z.ltb_spec 255 num); lia.
  - eexists. split; [apply shift_left_run; assumption|]. cbv zeta.
    set (flag := Z.land (Z.shiftr (reg s vx) 7) 1).
    set (s1 := set_registers (<[15%nat:=flag]> (registers s)) s).
    assert (Hflag : flag = reg s vx / 128).
    { subst flag. rewrite land_1_mod, Z.shiftr_div_pow2 by lia.
      change (2 ^ 7) with 128. apply Z.mod_small.
      split; [apply Z.div_pos; lia | apply Z.div_lt_upper_bound; lia]. }
    assert (Hflag01 : 0 <= flag <= 1).
    { rewrite Hflag.
      split; [apply Z.div_pos; lia|].
      apply Z.lt_succ_r. apply Z.div_lt_upper_bound; lia. }
    assert (Hlen1 : length (registers s1) = 16%nat)
      by (subst s1; rewrite length_put; assumption).
    assert (Hall1 : registers_8bit s1)
      by (apply registers_8bit_put; [assumption | lia]).
    assert (Hx1 : reg s1 vx = reg s vx).
    { subst s1. rewrite reg_after_flag by assumption.
      destruct (Z.eqb_spec vx 0xF); [lia | reflexivity]. }
    rewrite !reg_set_program_counter, registers_8bit_set_program_counter.
    rewrite (reg_put_eq s1 vx), (reg_put_ne s1 vx 0xF) by (assumption || lia).
    rewrite (registers_8bit_put_iff s1 vx) by assumption.
    replace (reg s1 0xF) with flag
      by (subst s1; symmetry; apply (reg_put_eq s 0xF); assumption).
    rewrite Hx1, Z.shiftl_mul_pow2 by lia. change (2 ^ 1) with 2.
    split; [lia|]. split; [assumption|].
    rewrite Hflag. pose proof (Z.div_mod (reg s vx) 128).
    pose proof (Z.mod_pos_bound (reg s vx) 128). lia.
Qed.

(** [V0 = 200], [V1 = 100], immediate 100: all three carry. *)
Lemma sums_fit_iff_no_carry_witness :
  let s := with_registers 200 100 0 init in
  (exists s', add 0 100 s = Return tt s' /\
     reg s' 0 = reg s 0 + 100 /\
     (registers_8bit s' <-> reg s 0 + 100 <= 255)) /\
  (exists s', add_xy 0 1 s = Return tt s' /\
     reg s' 0 = reg s 0 + reg s 1 /\
     reg s' 0xF = (reg s 0 + reg s 1) / 256 /\
     (registers_8bit s' <-> reg s' 0xF = 0)) /\
  (exists s', shift_left 0 s = Return tt s' /\
     reg s' 0 = 2 * reg s 0 /\
     reg s' 0xF = reg s 0 / 128 /\
     (registers_8bit s' <-> reg s' 0xF = 0)).
Proof.
  apply (sums_fit_iff_no_carry (with_registers 200 100 0 init) 0 1 100);
    [reflexivity | lia | lia | lia | apply with_registers_8bit; lia].
Defined.

(** X5.  On a sixteen-register file of 8-bit values, with general registers on
    both sides (indices 0..14): [sub_xy] leaves [Vx - Vy] in [Vx] and sets
    [VF] to 1 exactly when [Vx > Vy]; [sub_yx] leaves [Vy - Vx] and sets [VF]
    to 1 exactly when [Vy > Vx].  The result is 8-bit exactly when the
    subtrahend is not the larger operand, so with equal operands the result
    0 fits while the flag is 0. *)
Theorem differences_fit_iff_ordered (s : Chip8) (vx vy : Z) :
  length (registers s) = 16%nat -> 0 <= vx < 15 -> 0 <= vy < 15 ->
  registers_8bit s ->
  (exists s', sub_xy vx vy s = Return tt s' /\
     reg s' vx = reg s vx - reg s vy /\
     reg s' 0xF = int_of_bool (reg s vy <? reg s vx) /\
     (registers_8bit s' <-> reg s vy <= reg s vx)) /\
  (exists s', sub_yx vx vy s = Return tt s' /\
     reg s' vx = reg s vy - reg s vx /\
     reg s' 0xF = int_of_bool (reg s vx <? reg s vy) /\
     (registers_8bit s' <-> reg s vx <= reg s vy)).
Proof.
  intros Hlen Hvx Hvy Hall.
  assert (Hvx' : 0 <= vx < 16) by lia.
  assert (Hvy' : 0 <= vy < 16) by lia.
  assert (HF : 0 <= 0xF < 16) by lia.
  pose proof (reg_8bit s vx Hlen Hvx' Hall) as Hx.
  pose proof (reg_8bit s vy Hlen Hvy' Hall) as Hy.
  assert (Hkeep : forall flag i, 0 <= i < 15 ->
            reg (set_registers (<[15%nat:=flag]> (registers s)) s) i = reg s i).
  { intros flag i Hi. rewrite reg_after_flag by (assumption || lia).
    destruct (Z.eqb_spec i 0xF); [lia | reflexivity]. }
  assert (Hbit : forall b : bool, 0 <= int_of_bool b <= 255)
    by (intros []; simpl; lia).
  split.
  - eexists. split; [apply sub_xy_run; assumption|]. cbv zeta.
    set (flag := int_of_bool (reg s vy <? reg s vx)).
    set (s1 := set_registers (<[15%nat:=flag]> (registers s)) s).
    assert (Hlen1 : length (registers s1) = 16%nat)
      by (subst s1; rewrite length_put; assumption).
    assert (Hall1 : registers_8bit s1)
      by (apply registers_8bit_put; [assumption | apply Hbit]).
    rewrite !reg_set_program_counter, registers_8bit_set_program_counter.
    rewrite (reg_put_eq s1 vx), (reg_put_ne s1 vx 0xF) by (assumption || lia).
    rewrite (registers_8bit_put_iff s1 vx) by assumption.
    replace (reg s1 0xF) with flag
      by (subst s1; symmetry; apply (reg_put_eq s 0xF); assumption).
    subst s1. rewrite !Hkeep by assumption.
    split; [reflexivity|]. split; [reflexivity | lia].
  - eexists. split; [apply sub_yx_run; assumption|]. cbv zeta.
    set (flag := int_of_bool (reg s vx <? reg s vy)).
    set (s1 := set_registers (<[15%nat:=flag]> (registers s)) s).
    assert (Hlen1 : length (registers s1) = 16%nat)
      by (subst s1; rewrite length_put; assumption).
    assert (Hall1 : registers_8bit s1)
      by (apply registers_8bit_put; [assumption | apply Hbit]).
    rewrite !reg_set_program_counter, registers_8bit_set_program_counter.
    rewrite (reg_put_eq s1 vx), (reg_put_ne s1 vx 0xF) by (assumption || lia).
    rewrite (registers_8bit_put_iff s1 vx) by assumption.
    replace (reg s1 0xF) with flag
      by (subst s1; symmetry; apply (reg_put_eq s 0xF); assumption).
    subst s1. rewrite !Hkeep by assumption.
    split; [reflexivity|]. split; [reflexivity | lia].
Qed.

(** [V0 = 7], [V1 = 9]: [sub_xy] borrows, [sub_yx] does not. *)
Lemma differences_fit_iff_ordered_witness :
  let s := with_registers 7 9 0 init in
  (exists s', sub_xy 0 1 s = Return tt s' /\
     reg s' 0 = reg s 0 - reg s 1 /\
     reg s' 0xF = int_of_bool (reg s 1 <? reg s 0) /\
     (registers_8bit s' <-> reg s 1 <= reg s 0)) /\
  (exists s', sub_yx 0 1 s = Return tt s' /\
     reg s' 0 = reg s 1 - reg s 0 /\
     reg s' 0xF = int_of_bool (reg s 0 <? reg s 1) /\
     (registers_8bit s' <-> reg s 0 <= reg s 1)).
Proof.
  apply (differences_fit_iff_ordered (with_registers 7 9 0 init) 0 1);
    [reflexivity | lia | lia | apply with_registers_8bit; lia].
Defined.

(** ** Handlers one after the other *)

(** X6.  Setting the delay timer from [Vx] and reading it back into [Vy] copies
    [Vx] to [Vy] through the timer: both handlers return, the timer and [Vy]
    hold the old [Vx], the other registers and the sound timer are as
    before, and the program counter is 4 further. *)
Theorem delay_timer_round_trip (s : Chip8) (vx vy : Z) :
  length (registers s) = 16%nat -> 0 <= vx < 16 -> 0 <= vy < 16 ->
  exists s',
    then_ (load_dtx vx) (load_xdt vy) s = Return tt s' /\
    delay_timer s' = reg s vx /\ reg s' vy = reg s vx /\
    (forall i, 0 <= i < 16 -> i <> vy -> reg s' i = reg s i) /\
    sound_timer s' = sound_timer s /\
    program_counter s' = program_counter s + 4.
Proof.
  intros Hlen Hvx Hvy. unfold then_, bind.
  rewrite load_dtx_run by assumption.
  rewrite load_xdt_run by assumption.
  eexists. split; [reflexivity|].
  cbn [delay_timer sound_timer program_counter registers
       set_program_counter set_delay_timer set_registers].
  split; [reflexivity|]. split; [|split; [|split; [reflexivity | lia]]].
  - rewrite reg_set_program_counter.
    apply (reg_put_eq
             (set_program_counter (program_counter s + 2)
                (set_delay_timer (reg s vx) s))); assumption.
  - intros i Hi Hne. rewrite reg_set_program_counter.
    apply (reg_put_ne
             (set_program_counter (program_counter s + 2)
                (set_delay_timer (reg s vx) s))); (assumption || lia).
Qed.

(** [V0 = 7] through the timer into [V1]. *)
Lemma delay_timer_round_trip_witness :
  let s := with_registers 7 9 0 init in
  exists s',
    then_ (load_dtx 0) (load_xdt 1) s = Return tt s' /\
    delay_timer s' = reg s 0 /\ reg s' 1 = reg s 0 /\
    (forall i, 0 <= i < 16 -> i <> 1 -> reg s' i = reg s i) /\
    sound_timer s' = sound_timer s /\
    program_counter s' = program_counter s + 4.
Proof.
  apply (delay_timer_round_trip (with_registers 7 9 0 init) 0 1);
    [reflexivity | lia | lia].
Defined.

(** X7.  A register just loaded with [kk] compares equal to [kk]: after
    [load vx kk], [skip_if vx kk] always skips (program counter 6 further in
    all) and [skip_if_not vx kk] never does (4 further). *)
Theorem load_then_skip (s : Chip8) (vx kk : Z) :
  length (registers s) = 16%nat -> 0 <= vx < 16 ->
  (exists s', then_ (load vx kk) (skip_if vx kk) s = Return tt s' /\
     reg s' vx = kk /\ program_counter s' = program_counter s + 6) /\
  (exists s', then_ (load vx kk) (skip_if_not vx kk) s = Return tt s' /\
     reg s' vx = kk /\ program_counter s' = program_counter s + 4).
Proof.
  intros Hlen Hvx. unfold then_, bind.
  rewrite load_run by assumption.
  set (s1 := set_program_counter (program_counter s + 2)
               (set_registers (<[Z.to_nat vx:=kk]> (registers s)) s)).
  assert (Hlen1 : length (registers s1) = 16%nat)
    by (subst s1; cbn [registers set_program_counter set_registers];
        rewrite length_insert; assumption).
  assert (Hreg : reg s1 vx = kk)
    by (subst s1; rewrite reg_set_program_counter; apply reg_put_eq; assumption).
  rewrite skip_if_run, skip_if_not_run by assumption.
  rewrite Hreg, Z.eqb_refl.
  split; eexists; (split; [reflexivity|]);
    rewrite reg_set_program_counter;
    (split; [assumption|]);
    subst s1; cbn [program_counter set_program_counter]; lia.
Qed.

Lemma load_then_skip_witness :
  (exists s', then_ (load 3 0x2A) (skip_if 3 0x2A) init = Return tt s' /\
     reg s' 3 = 0x2A /\ program_counter s' = program_counter init + 6) /\
  (exists s', then_ (load 3 0x2A) (skip_if_not 3 0x2A) init = Return tt s' /\
     reg s' 3 = 0x2A /\ program_counter s' = program_counter init + 4).
Proof.
  apply (load_then_skip init 3 0x2A); [reflexivity | lia].
Defined.

(** ** Register indices out of 0..15 *)

Section SubscriptBounds.

Context {A : Type}.
Implicit Types (l : list A) (i : Z) (x : A).

Lemma py_index_out (len i : Z) :
  i < - len \/ len <= i -> py_index len i = None.
Proof.
  intros H. unfold py_index.
  destruct (Z.leb_spec 0 i), (Z.ltb_spec i len), (Z.leb_spec (- len) i),
    (Z.ltb_spec i 0); simpl; (reflexivity || lia).
Qed.

Lemma py_index_neg (len i : Z) :
  - len <= i < 0 -> py_index len i = py_index len (len + i).
Proof.
  intros H. unfold py_index.
  destruct (Z.leb_spec 0 i); [lia|].
  destruct (Z.leb_spec (- len) i); [|lia].
  destruct (Z.ltb_spec i 0); [|lia].
  destruct (Z.leb_spec 0 (len + i)); [|lia].
  destruct (Z.ltb_spec (len + i) len); [|lia].
  simpl. reflexivity.
Qed.

Lemma getitem_out l i :
  i < - Z.of_nat (length l) \/ Z.of_nat (length l) <= i -> getitem l i = None.
Proof. intros H. unfold getitem. now rewrite py_index_out. Qed.

Lemma setitem_out l i x :
  i < - Z.of_nat (length l) \/ Z.of_nat (length l) <= i ->
  setitem l i x = None.
Proof. intros H. unfold setitem. now rewrite py_index_out. Qed.

Lemma getitem_neg l i :
  - Z.of_nat (length l) <= i < 0 ->
  getitem l i = getitem l (Z.of_nat (length l) + i).
Proof. intros H. unfold getitem. now rewrite py_index_neg. Qed.

Lemma setitem_neg l i x :
  - Z.of_nat (length l) <= i < 0 ->
  setitem l i x = setitem l (Z.of_nat (length l) + i) x.
Proof. intros H. unfold setitem. now rewrite py_index_neg. Qed.

Lemma getitem_in l i :
  - Z.of_nat (length l) <= i < Z.of_nat (length l) ->
  exists x, getitem l i = Some x.
Proof.
  intros H. destruct (Z.ltb_spec i 0).
  - rewrite getitem_neg by lia. apply getitem_is_Some. lia.
  - apply getitem_is_Some. lia.
Qed.

End SubscriptBounds.

(** X8.  A register index is a Python list subscript.  On the sixteen-register
    file, [load_xy] with a source index below -16 or above 15 raises
    [IndexError] and leaves the object as it was; so it does with a source
    in -16..15 and a destination outside that range, the program counter not
    having moved; and an index in -16..-1 names the same register as that
    index plus 16. *)
Theorem register_index_bounds (s : Chip8) (vx vy : Z) :
  length (registers s) = 16%nat ->
  (vy < -16 \/ 16 <= vy -> load_xy vx vy s = Raise IndexError s) /\
  (-16 <= vy < 16 -> vx < -16 \/ 16 <= vx ->
   load_xy vx vy s = Raise IndexError s) /\
  (-16 <= vx < 0 -> load_xy vx vy s = load_xy (16 + vx) vy s) /\
  (-16 <= vy < 0 -> load_xy vx vy s = load_xy vx (16 + vy) s).
Proof.
  intros Hlen.
  assert (Hlen' : Z.of_nat (length (registers s)) = 16) by lia.
  unfold load_xy, get_register, put_register. py_simpl.
  repeat split.
  - intros Hvy. rewrite getitem_out by lia. reflexivity.
  - intros Hvy Hvx.
    destruct (getitem_in (registers s) vy) as [y Hy]; [lia|].
    rewrite Hy, setitem_out by lia. reflexivity.
  - intros Hvx. destruct (getitem (registers s) vy) as [y|]; [|reflexivity].
    rewrite (setitem_neg _ vx) by lia. rewrite Hlen'. reflexivity.
  - intros Hvy. rewrite (getitem_neg _ vy) by lia.
    rewrite Hlen'. reflexivity.
Qed.

(** Source 16, destination -17, destination -1 (which is [VF]) and source
    -16 (which is [V0]) on the fresh interpreter. *)
Lemma register_index_bounds_witness :
  load_xy 0 16 init = Raise IndexError init /\
  load_xy (-17) 0 init = Raise IndexError init /\
  load_xy (-1) 0 init = load_xy 15 0 init /\
  load_xy 0 (-16) init = load_xy 0 0 init.
Proof.
  split; [|split; [|split]].
  - apply (proj1 (register_index_bounds init 0 16 eq_refl)). lia.
  - apply (proj1 (proj2 (register_index_bounds init (-17) 0 eq_refl))); lia.
  - apply (proj1 (proj2 (proj2 (register_index_bounds init (-1) 0 eq_refl)))).
    lia.
  - apply (proj2 (proj2 (proj2 (register_index_bounds init 0 (-16) eq_refl)))).
    lia.
Defined.

(** ** The stack *)

(** X9.  [ret] on a sixteen-slot stack, by the stack pointer [sp] it finds.  With
    [sp <= 0] it quits; with [sp] in 1..16 it returns to the address in slot
    [sp - 1] plus 2; with [sp > 16] the read of [self.stack[sp - 1]] raises
    [IndexError].  In all three cases the stack pointer has been lowered by
    one, also when the method raises. *)
Theorem ret_outcomes (s : Chip8) :
  length (stack s) = 16%nat ->
  (stack_pointer s <= 0 ->
   ret s = Raise SystemExit (set_stack_pointer (stack_pointer s - 1) s)) /\
  (1 <= stack_pointer s <= 16 ->
   exists top,
     stack s !! Z.to_nat (stack_pointer s - 1) = Some top /\
     ret s = Return tt (set_program_counter (top + 2)
                          (set_stack_pointer (stack_pointer s - 1) s))) /\
  (16 < stack_pointer s ->
   ret s = Raise IndexError (set_stack_pointer (stack_pointer s - 1) s)).
Proof.
  intros Hlen. split; [|split].
  - intros Hsp. unfold ret. py_simpl. state_simpl.
    destruct (Z.ltb_spec (stack_pointer s - 1) 0); [reflexivity | lia].
  - intros Hsp.
    destruct (lookup_lt_is_Some_2 (stack s) (Z.to_nat (stack_pointer s - 1)))
      as [top Htop]; [lia|].
    exists top. split; [assumption|]. apply ret_run; [lia | assumption].
  - intros Hsp. unfold ret. py_simpl. state_simpl.
    destruct (Z.ltb_spec (stack_pointer s - 1) 0); [lia|]. state_simpl.
    rewrite getitem_out by lia. reflexivity.
Qed.

(** Stack pointers -3, 1 and 20 on the fresh interpreter's stack. *)
Lemma ret_outcomes_witness :
  ret (set_stack_pointer (-3) init) =
    Raise SystemExit (set_stack_pointer (-4) init) /\
  (exists top,
     stack (set_stack_pointer 1 init) !! 0%nat = Some top /\
     ret (set_stack_pointer 1 init) =
       Return tt (set_program_counter (top + 2) (set_stack_pointer 0 init))) /\
  ret (set_stack_pointer 20 init) =
    Raise IndexError (set_stack_pointer 19 init).
Proof.
  split; [|split].
  - apply (proj1 (ret_outcomes (set_stack_pointer (-3) init) eq_refl)).
    simpl. lia.
  - apply (proj1 (proj2 (ret_outcomes (set_stack_pointer 1 init) eq_refl))).
    simpl. lia.
  - apply (proj2 (proj2 (ret_outcomes (set_stack_pointer 20 init) eq_refl))).
    simpl. lia.
Defined.

(** What [nested] leaves alone. *)
Lemma call_frame (s : Chip8) (nnn : Z) :
  0 <= stack_pointer s < Z.of_nat (length (stack s)) ->
  exists s1,
    call nnn s = Return tt s1 /\
    stack_pointer s1 = stack_pointer s + 1 /\
    length (stack s1) = length (stack s) /\
    stack s1 !! Z.to_nat (stack_pointer s) = Some (program_counter s) /\
    (forall i : nat, (i < Z.to_nat (stack_pointer s))%nat ->
       stack s1 !! i = stack s !! i) /\
    registers s1 = registers s /\ memory s1 = memory s /\
    address_register s1 = address_register s /\
    delay_timer s1 = delay_timer s /\ sound_timer s1 = sound_timer s.
Proof.
  intros Hsp. eexists. split; [apply call_run; assumption|].
  state_simpl. split; [reflexivity|].
  split; [apply length_insert|].
  split; [apply list_lookup_insert_eq; lia|].
  split; [|repeat split].
  intros i Hi. apply list_lookup_insert_ne. lia.
Qed.

Lemma nested_run (targets : list Z) :
  forall s,
    length (stack s) = 16%nat -> 0 <= stack_pointer s ->
    stack_pointer s + Z.of_nat (length targets) <= 16 ->
    exists s',
      nested targets s = Return tt s' /\
      stack_pointer s' = stack_pointer s /\
      program_counter s' =
        program_counter s + (if targets is [] then 0 else 2) /\
      length (stack s') = 16%nat /\
      (forall i : nat, (i < Z.to_nat (stack_pointer s))%nat ->
         stack s' !! i = stack s !! i) /\
      registers s' = registers s /\ memory s' = memory s /\
      address_register s' = address_register s /\
      delay_timer s' = delay_timer s /\ sound_timer s' = sound_timer s.
Proof.
  induction targets as [|nnn deeper IH]; intros s Hlen Hsp Hfit.
  - exists s. split; [reflexivity|].
    repeat split; simpl; (assumption || lia).
  - cbn [length] in Hfit. cbn [nested]. unfold bind.
    destruct (call_frame s nnn) as
      (s1 & -> & Hsp1 & Hlen1 & Htop1 & Hlow1 & Hr1 & Hm1 & Hi1 & Hd1 & Hs1);
      [lia|].
    destruct (IH s1) as
      (s2 & -> & Hsp2 & _ & Hlen2 & Hlow2 & Hr2 & Hm2 & Hi2 & Hd2 & Hs2);
      [congruence | lia | lia |].
    assert (Htop2 : stack s2 !! Z.to_nat (stack_pointer s2 - 1) =
                    Some (program_counter s)).
    { rewrite Hsp2, Hsp1.
      replace (stack_pointer s + 1 - 1) with (stack_pointer s) by lia.
      rewrite Hlow2 by lia. assumption. }
    rewrite (ret_run s2 (program_counter s)) by (assumption || lia).
    eexists. split; [reflexivity|]. state_simpl.
    split; [lia|]. split; [reflexivity|]. split; [assumption|].
    split; [|repeat split; congruence].
    intros i Hi. rewrite Hlow2 by lia. apply Hlow1. assumption.
Qed.

(** X10.  Subroutines nested no deeper than the free stack slots come back.  On a
    sixteen-slot stack with the stack pointer [sp >= 0], calling the targets
    one inside the other and returning from each, with the list no longer
    than [16 - sp], returns normally with the stack pointer back at [sp],
    the program counter 2 past where the outermost call was made, the stack
    slots below [sp] untouched, and the registers, memory, index register
    and timers as they were, whatever the targets are. *)
Theorem nested_calls_return (s : Chip8) (nnn : Z) (deeper : list Z) :
  length (stack s) = 16%nat -> 0 <= stack_pointer s ->
  stack_pointer s + Z.of_nat (length (nnn :: deeper)) <= 16 ->
  exists s',
    nested (nnn :: deeper) s = Return tt s' /\
    stack_pointer s' = stack_pointer s /\
    program_counter s' = program_counter s + 2 /\
    (forall i : nat, (i < Z.to_nat (stack_pointer s))%nat ->
       stack s' !! i = stack s !! i) /\
    registers s' = registers s /\ memory s' = memory s /\
    address_register s' = address_register s /\
    delay_timer s' = delay_timer s /\ sound_timer s' = sound_timer s.
Proof.
  intros Hlen Hsp Hfit.
  destruct (nested_run (nnn :: deeper) s Hlen Hsp Hfit)
    as (s' & Hrun & Hsp' & Hpc & _ & Hrest).
  exists s'. repeat split; (assumption || apply Hrest).
Qed.

(** Sixteen nested calls from the fresh interpreter. *)
Lemma nested_calls_return_witness :
  exists s',
    nested (0x300 :: replicate 15 0x400) init = Return tt s' /\
    stack_pointer s' = stack_pointer init /\
    program_counter s' = program_counter init + 2 /\
    (forall i : nat, (i < Z.to_nat (stack_pointer init))%nat ->
       stack s' !! i = stack init !! i) /\
    registers s' = registers init /\ memory s' = memory init /\
    address_register s' = address_register init /\
    delay_timer s' = delay_timer init /\ sound_timer s' = sound_timer init.
Proof.
  apply (nested_calls_return init 0x300 (replicate 15 0x400));
    [reflexivity | simpl; lia | simpl; lia].
Defined.

(** X11.  Nesting deeper than the free stack slots fails in the call that finds
    the stack pointer at 16: with [0 <= sp <= 16] and more targets than
    [16 - sp], the run raises [IndexError]. *)
Theorem nested_calls_overflow (targets : list Z) (s : Chip8) :
  length (stack s) = 16%nat -> 0 <= stack_pointer s <= 16 ->
  16 < stack_pointer s + Z.of_nat (length targets) ->
  raised (nested targets s) = Some IndexError.
Proof.
  revert s. induction targets as [|nnn deeper IH]; intros s Hlen Hsp Hover.
  - simpl in Hover. lia.
  - cbn [length] in Hover. cbn [nested]. unfold bind.
    destruct (Z.eq_dec (stack_pointer s) 16) as [H16|Hne].
    + unfold call. py_simpl. rewrite setitem_out by lia. reflexivity.
    + destruct (call_frame s nnn) as (s1 & -> & Hsp1 & Hlen1 & _); [lia|].
      specialize (IH s1 ltac:(congruence) ltac:(lia) ltac:(lia)).
      destruct (nested deeper s1); [discriminate | exact IH].
Qed.

(** Seventeen nested calls from the fresh interpreter. *)
Lemma nested_calls_overflow_witness :
  raised (nested (replicate 17 0x300) init) = Some IndexError.
Proof.
  apply (nested_calls_overflow (replicate 17 0x300) init);
    [reflexivity | simpl; lia | simpl; lia].
Defined.

(** ** The font *)

Lemma length_font : length font = 80%nat.
Proof. reflexivity. Qed.

Lemma load_font_run (s : Chip8) :
  load_font s =
  Return tt (set_memory (map PyInt font ++ drop 80 (memory s)) s).
Proof. reflexivity. Qed.

(** X12.  [load_font] on any object: it returns; the first 80 cells hold the font
    table and the cells from 80 on are as before; the memory keeps its
    length, unless it was shorter than 80 cells, in which case it now has
    80; nothing but the memory changes; and loading the font a second time
    changes nothing. *)
Theorem load_font_frame (s : Chip8) :
  exists s',
    load_font s = Return tt s' /\
    length (memory s') = Nat.max 80 (length (memory s)) /\
    (forall n : nat, (n < 80)%nat -> memory s' !! n = PyInt <$> font !! n) /\
    (forall n : nat, (80 <= n)%nat -> memory s' !! n = memory s !! n) /\
    unchanged_but_memory s s' /\
    load_font s' = Return tt s'.
Proof.
  eexists. split; [apply load_font_run|]. cbn [memory set_memory].
  split; [|split; [|split; [|split]]].
  - rewrite length_app, length_map, length_drop, length_font. lia.
  - intros n Hn. rewrite lookup_app_l by (rewrite length_map, length_font; lia).
    apply list_lookup_fmap.
  - intros n Hn. rewrite lookup_app_r by (rewrite length_map, length_font; lia).
    rewrite length_map, length_font, lookup_drop. f_equal. lia.
  - repeat split.
  - rewrite load_font_run. cbn [memory set_memory].
    rewrite (drop_app_length' (map PyInt font))
      by (rewrite length_map, length_font; reflexivity).
    reflexivity.
Qed.

(** X13.  After the font is loaded, [load_ix] finds the sprites.  On any object
    with sixteen registers and a hexadecimal digit [d] in [Vx], [load_font]
    and then [load_ix vx] return, [I] is [5 * d], and for [k] in 0..4 the
    cell [I + k] holds row [k] of the sprite of [d], the entry [5 * d + k]
    of the font table. *)
Theorem load_ix_points_at_sprite (s : Chip8) (vx k : Z) :
  length (registers s) = 16%nat -> 0 <= vx < 16 ->
  0 <= reg s vx <= 15 -> 0 <= k < 5 ->
  exists s' row,
    then_ load_font (load_ix vx) s = Return tt s' /\
    address_register s' = 5 * reg s vx /\
    font !! Z.to_nat (5 * reg s vx + k) = Some row /\
    cell s' (address_register s' + k) = Some (PyInt row).
Proof.
  intros Hlen Hvx Hd Hk.
  destruct (load_font_frame s) as (s1 & Hfont & Hlen1 & Hlow & _ & Hsame & _).
  destruct Hsame as (_ & _ & _ & Hregs & _).
  assert (Hreg1 : reg s1 vx = reg s vx) by (unfold reg; rewrite Hregs; reflexivity).
  destruct (lookup_lt_is_Some_2 font (Z.to_nat (5 * reg s vx + k)))
    as [row Hrow]; [rewrite length_font; lia|].
  unfold then_, bind. rewrite Hfont.
  rewrite load_ix_run by (rewrite ?Hregs; assumption).
  eexists. exists row. split; [reflexivity|].
  unfold cell. cbn [address_register memory set_program_counter
                    set_address_register].
  rewrite Hreg1. split; [lia|]. split; [assumption|].
  replace (reg s vx * 5 + k) with (5 * reg s vx + k) by lia.
  rewrite getitem_nonneg by lia.
  rewrite Hlow by lia. rewrite Hrow. reflexivity.
Qed.

(** Digit 0xA in [V0], row 2: entry 52 of the table. *)
Lemma load_ix_points_at_sprite_witness :
  let s := with_registers 0xA 0 0 init in
  exists s' row,
    then_ load_font (load_ix 0) s = Return tt s' /\
    address_register s' = 5 * reg s 0 /\
    font !! Z.to_nat (5 * reg s 0 + 2) = Some row /\
    cell s' (address_register s' + 2) = Some (PyInt row).
Proof.
  apply (load_ix_points_at_sprite (with_registers 0xA 0 0 init) 0 2);
    [reflexivity | lia | vm_compute; split; discriminate | lia].
Defined.

(** ** Loading a program *)

Lemma put_memory_ok (s : Chip8) (a : Z) (v : pyval) :
  0 <= a < Z.of_nat (length (memory s)) ->
  put_memory a v s =
  Return tt (set_memory (<[Z.to_nat a:=v]> (memory s)) s).
Proof.
  intros Ha. unfold put_memory, bind, read.
  rewrite setitem_nonneg by assumption. reflexivity.
Qed.

Lemma put_memory_out (s : Chip8) (a : Z) (v : pyval) :
  Z.of_nat (length (memory s)) <= a -> put_memory a v s = Raise IndexError s.
Proof.
  intros Ha. unfold put_memory, bind, read.
  rewrite setitem_out by lia. reflexivity.
Qed.

Lemma unchanged_but_memory_set (s : Chip8) (m : list pyval) :
  unchanged_but_memory s (set_memory m s).
Proof. repeat split. Qed.

Lemma unchanged_but_memory_trans (s1 s2 s3 : Chip8) :
  unchanged_but_memory s1 s2 -> unchanged_but_memory s2 s3 ->
  unchanged_but_memory s1 s3.
Proof. unfold unchanged_but_memory. intuition congruence. Qed.

(** The loop of [load_file] when everything fits: the bytes replace the
    cells from [program_counter + index] on. *)
Lemma load_file_loop_fits (data : list Z) :
  forall (index : Z) (s : Chip8),
    0 <= program_counter s + index ->
    program_counter s + index + Z.of_nat (length data)
      <= Z.of_nat (length (memory s)) ->
    exists s',
      load_file_loop index data s = Return tt s' /\
      unchanged_but_memory s s' /\
      memory s' =
        take (Z.to_nat (program_counter s + index)) (memory s)
        ++ map PyInt data
        ++ drop (Z.to_nat (program_counter s + index) + length data) (memory s).
Proof.
  induction data as [|val rest IH]; intros index s Hlo Hhi.
  - exists s. split; [reflexivity|]. split; [repeat split|].
    cbn [map length app]. rewrite Nat.add_0_r, take_drop. reflexivity.
  - cbn [length] in Hhi. cbn [load_file_loop]. unfold bind at 1, read at 1.
    unfold bind at 1. rewrite put_memory_ok by lia.
    set (p := Z.to_nat (program_counter s + index)).
    set (s1 := set_memory (<[p:=PyInt val]> (memory s)) s).
    destruct (IH (index + 1) s1) as (s' & Hrun & Hsame & Hmem).
    { subst s1. cbn [program_counter set_memory]. lia. }
    { subst s1. cbn [program_counter memory set_memory].
      rewrite length_insert. lia. }
    exists s'. split; [exact Hrun|]. split.
    + apply (unchanged_but_memory_trans s s1 s'); [|assumption].
      apply unchanged_but_memory_set.
    + rewrite Hmem. subst s1. cbn [program_counter memory set_memory].
      replace (Z.to_nat (program_counter s + (index + 1))) with (S p)
        by (subst p; lia).
      rewrite (take_S_r _ p (PyInt val))
        by (apply list_lookup_insert_eq; subst p; lia).
      rewrite take_insert_ge by lia.
      rewrite drop_insert_lt by lia.
      rewrite <- app_assoc. cbn [map length app].
      replace (p + S (length rest))%nat with (S p + length rest)%nat by lia.
      reflexivity.
Qed.

(** The loop of [load_file] when the bytes run past the end of the memory:
    those that fit are written, then the subscript raises. *)
Lemma load_file_loop_overflows (data : list Z) :
  forall (index : Z) (s : Chip8),
    0 <= program_counter s + index <= Z.of_nat (length (memory s)) ->
    Z.of_nat (length (memory s))
      < program_counter s + index + Z.of_nat (length data) ->
    exists s',
      load_file_loop index data s = Raise IndexError s' /\
      unchanged_but_memory s s' /\
      memory s' =
        take (Z.to_nat (program_counter s + index)) (memory s)
        ++ map PyInt
             (take (length (memory s) - Z.to_nat (program_counter s + index))
                   data).
Proof.
  induction data as [|val rest IH]; intros index s Hlo Hhi.
  - cbn [length] in Hhi. lia.
  - cbn [length] in Hhi. cbn [load_file_loop]. unfold bind at 1, read at 1.
    unfold bind at 1.
    set (p := Z.to_nat (program_counter s + index)).
    destruct (Z.eq_dec (program_counter s + index)
                (Z.of_nat (length (memory s)))) as [Hend|Hin].
    + rewrite put_memory_out by lia.
      exists s. split; [reflexivity|]. split; [repeat split|].
      replace (length (memory s) - p)%nat with 0%nat by (subst p; lia).
      rewrite take_ge by (subst p; lia).
      cbn [take map]. rewrite app_nil_r. reflexivity.
    + rewrite put_memory_ok by lia. fold p.
      set (s1 := set_memory (<[p:=PyInt val]> (memory s)) s).
      destruct (IH (index + 1) s1) as (s' & Hrun & Hsame & Hmem).
      { subst s1. cbn [program_counter memory set_memory].
        rewrite length_insert. lia. }
      { subst s1. cbn [program_counter memory set_memory].
        rewrite length_insert. lia. }
      exists s'. split; [exact Hrun|]. split.
      * apply (unchanged_but_memory_trans s s1 s'); [|assumption].
        apply unchanged_but_memory_set.
      * rewrite Hmem. subst s1. cbn [program_counter memory set_memory].
        rewrite length_insert.
        replace (Z.to_nat (program_counter s + (index + 1))) with (S p)
          by (subst p; lia).
        rewrite (take_S_r _ p (PyInt val))
          by (apply list_lookup_insert_eq; subst p; lia).
        rewrite take_insert_ge by lia.
        replace (length (memory s) - p)%nat
          with (S (length (memory s) - S p)) by (subst p; lia).
        rewrite <- app_assoc. reflexivity.
Qed.

(** X14.  A program that fits.  With the program counter [pc >= 0] and
    [pc + len(data)] within the memory, [load_file] returns; byte [i] of the
    file is in cell [pc + i]; every other cell is as before; the memory
    keeps its length; and nothing but the memory changes, so the program
    counter still points at the first byte loaded. *)
Theorem load_file_stores (data : list Z) (s : Chip8) :
  0 <= program_counter s ->
  program_counter s + Z.of_nat (length data) <= Z.of_nat (length (memory s)) ->
  exists s',
    load_file data s = Return tt s' /\
    unchanged_but_memory s s' /\
    length (memory s') = length (memory s) /\
    (forall i : nat, (i < length data)%nat ->
       cell s' (program_counter s + Z.of_nat i) = PyInt <$> data !! i) /\
    (forall a, 0 <= a < Z.of_nat (length (memory s)) ->
       ~ (program_counter s <= a
          < program_counter s + Z.of_nat (length data)) ->
       cell s' a = cell s a).
Proof.
  intros Hpc Hfit.
  destruct (load_file_loop_fits data 0 s) as (s' & Hrun & Hsame & Hmem);
    [lia | lia |].
  rewrite Z.add_0_r in Hmem.
  set (p := Z.to_nat (program_counter s)) in *.
  assert (Hlen : length (memory s') = length (memory s)).
  { rewrite Hmem, !length_app, length_map, length_take, length_drop.
    subst p. lia. }
  exists s'. split; [exact Hrun|]. split; [assumption|].
  split; [assumption|]. unfold cell. split.
  - intros i Hi. rewrite getitem_nonneg by lia. rewrite Hmem.
    rewrite lookup_app_r by (rewrite length_take; subst p; lia).
    rewrite length_take.
    rewrite lookup_app_l by (rewrite length_map; subst p; lia).
    rewrite list_lookup_fmap. do 2 f_equal. subst p. lia.
  - intros a Ha Hout. rewrite !getitem_nonneg by lia. rewrite Hmem.
    destruct (Z.lt_ge_cases a (program_counter s)) as [Hlow|Hhigh].
    + rewrite lookup_app_l by (rewrite length_take; subst p; lia).
      apply lookup_take_lt. subst p. lia.
    + rewrite lookup_app_r by (rewrite length_take; subst p; lia).
      rewrite length_take.
      rewrite lookup_app_r by (rewrite length_map; subst p; lia).
      rewrite length_map, lookup_drop. f_equal. subst p. lia.
Qed.

(** Three bytes at the start address 0x200 of the fresh interpreter. *)
Lemma load_file_stores_witness :
  let data := [0x12; 0x34; 0xFF] in
  exists s',
    load_file data init = Return tt s' /\
    unchanged_but_memory init s' /\
    length (memory s') = length (memory init) /\
    (forall i : nat, (i < length data)%nat ->
       cell s' (program_counter init + Z.of_nat i) = PyInt <$> data !! i) /\
    (forall a, 0 <= a < Z.of_nat (length (memory init)) ->
       ~ (program_counter init <= a
          < program_counter init + Z.of_nat (length data)) ->
       cell s' a = cell init a).
Proof.
  apply (load_file_stores [0x12; 0x34; 0xFF] init);
    [simpl; lia | vm_compute; discriminate].
Defined.

(** X15.  A program that does not fit.  With the program counter inside the memory
    (or just past its end) and the file reaching past the end, [load_file]
    raises [IndexError]; by then the bytes that fit have replaced the cells
    from the program counter to the end of the memory, and nothing else has
    changed. *)
Theorem load_file_overflows (data : list Z) (s : Chip8) :
  0 <= program_counter s <= Z.of_nat (length (memory s)) ->
  Z.of_nat (length (memory s)) < program_counter s + Z.of_nat (length data) ->
  exists s',
    load_file data s = Raise IndexError s' /\
    unchanged_but_memory s s' /\
    length (memory s') = length (memory s) /\
    (forall i : nat,
       program_counter s + Z.of_nat i < Z.of_nat (length (memory s)) ->
       cell s' (program_counter s + Z.of_nat i) = PyInt <$> data !! i) /\
    (forall a, 0 <= a < program_counter s -> cell s' a = cell s a).
Proof.
  intros Hpc Hover.
  destruct (load_file_loop_overflows data 0 s) as (s' & Hrun & Hsame & Hmem);
    [lia | lia |].
  rewrite Z.add_0_r in Hmem.
  set (p := Z.to_nat (program_counter s)) in *.
  assert (Hlen : length (memory s') = length (memory s)).
  { rewrite Hmem, length_app, length_map, !length_take. subst p. lia. }
  exists s'. split; [exact Hrun|]. split; [assumption|].
  split; [assumption|]. unfold cell. split.
  - intros i Hi. rewrite getitem_nonneg by lia. rewrite Hmem.
    rewrite lookup_app_r by (rewrite length_take; subst p; lia).
    rewrite length_take, list_lookup_fmap.
    rewrite lookup_take_lt by (subst p; lia).
    do 2 f_equal. subst p. lia.
  - intros a Ha. rewrite !getitem_nonneg by lia. rewrite Hmem.
    rewrite lookup_app_l by (rewrite length_take; subst p; lia).
    apply lookup_take_lt. subst p. lia.
Qed.

(** Three bytes with the program counter two cells before the end. *)
Lemma load_file_overflows_witness :
  let data := [0x12; 0x34; 0xFF] in
  let s := set_program_counter 4094 init in
  exists s',
    load_file data s = Raise IndexError s' /\
    unchanged_but_memory s s' /\
    length (memory s') = length (memory s) /\
    (forall i : nat,
       program_counter s + Z.of_nat i < Z.of_nat (length (memory s)) ->
       cell s' (program_counter s + Z.of_nat i) = PyInt <$> data !! i) /\
    (forall a, 0 <= a < program_counter s -> cell s' a = cell s a).
Proof.
  apply (load_file_overflows [0x12; 0x34; 0xFF]
           (set_program_counter 4094 init));
    [vm_compute; split; discriminate | vm_compute; reflexivity].
Defined.

(** ** Binary-coded decimal, in general *)

(** Dividing a byte by ten never overflows.  The 256 quotients are computed. *)
Lemma int_truediv_ten_byte (x : Z) :
  0 <= x <= 255 -> exists f, int_truediv_ten x = inr f.
Proof.
  intros Hx.
  assert (Hall : forallb
                   (fun n => match int_truediv_ten (Z.of_nat n) with
                             | inr _ => true
                             | inl _ => false
                             end) (seq 0 256) = true)
    by (vm_compute; reflexivity).
  rewrite forallb_forall in Hall.
  specialize (Hall (Z.to_nat x)).
  rewrite Z2Nat.id in Hall by lia.
  destruct (int_truediv_ten x) as [e|f].
  - discriminate Hall. apply in_seq. lia.
  - exists f. reflexivity.
Qed.

(** The three rounds of [load_bcd] once the first division has given the
    float [f]. *)
Lemma load_bcd_run (s : Chip8) (vx : Z) (f : float) :
  length (registers s) = 16%nat -> 0 <= vx < 16 ->
  0 <= address_register s ->
  address_register s + 2 < Z.of_nat (length (memory s)) ->
  int_truediv_ten (reg s vx) = inr f ->
  load_bcd vx s =
  Return tt
    (set_program_counter (program_counter s + 2)
       (set_memory
          (<[Z.to_nat (address_register s):=
               PyFloat (float_rem_ten (f / float_ten))]>
             (<[Z.to_nat (address_register s + 1):=PyFloat (float_rem_ten f)]>
                (<[Z.to_nat (address_register s + 2):=PyInt (reg s vx mod 10)]>
                   (memory s)))) s)).
Proof.
  intros Hlen Hvx Hlo Hhi Hdiv. unfold load_bcd. py_simpl.
  rewrite get_register_ok by assumption.
  cbn [load_bcd_loop]. py_simpl. cbn [py_mod_ten py_truediv_ten].
  rewrite Hdiv.
  rewrite put_memory_ok by lia.
  cbn [address_register memory set_memory py_mod_ten py_truediv_ten].
  rewrite put_memory_ok
    by (cbn [address_register memory set_memory]; rewrite length_insert; lia).
  cbn [address_register memory set_memory py_mod_ten py_truediv_ten].
  rewrite put_memory_ok
    by (cbn [address_register memory set_memory]; rewrite !length_insert; lia).
  cbn [address_register memory set_memory py_mod_ten py_truediv_ten].
  replace (address_register s + 0) with (address_register s) by lia.
  reflexivity.
Qed.

(** X16.  [load_bcd] on a byte.  With sixteen registers, [Vx] in 0..255 and the
    three cells [I], [I+1], [I+2] inside the memory ([I >= 0]), [load_bcd]
    returns and advances the program counter by 2.  Cell [I+2] holds the
    integer [Vx mod 10].  Cells [I+1] and [I] hold floats, never integers:
    with [f] the float nearest [Vx / 10], they are [f % 10] and
    [(f / 10) % 10].  Every other cell, the registers and [I] are as
    before. *)
Theorem load_bcd_on_a_byte (s : Chip8) (vx : Z) :
  length (registers s) = 16%nat -> 0 <= vx < 16 ->
  0 <= reg s vx <= 255 ->
  0 <= address_register s ->
  address_register s + 2 < Z.of_nat (length (memory s)) ->
  exists s' f,
    load_bcd vx s = Return tt s' /\
    program_counter s' = program_counter s + 2 /\
    int_truediv_ten (reg s vx) = inr f /\
    cell s' (address_register s + 2) = Some (PyInt (reg s vx mod 10)) /\
    cell s' (address_register s + 1) = Some (PyFloat (float_rem_ten f)) /\
    cell s' (address_register s) =
      Some (PyFloat (float_rem_ten (f / float_ten))) /\
    (forall a, 0 <= a < Z.of_nat (length (memory s)) ->
       ~ (address_register s <= a <= address_register s + 2) ->
       cell s' a = cell s a) /\
    registers s' = registers s /\
    address_register s' = address_register s.
Proof.
  intros Hlen Hvx Hbyte Hlo Hhi.
  destruct (int_truediv_ten_byte (reg s vx) Hbyte) as [f Hf].
  eexists. exists f.
  split; [apply (load_bcd_run s vx f); assumption|].
  split; [reflexivity|]. split; [assumption|].
  unfold cell. cbn [memory set_program_counter set_memory].
  split; [|split; [|split; [|split; [|split; reflexivity]]]].
  - rewrite getitem_nonneg by (rewrite !length_insert; lia).
    rewrite !list_lookup_insert_ne by lia.
    apply list_lookup_insert_eq. lia.
  - rewrite getitem_nonneg by (rewrite !length_insert; lia).
    rewrite list_lookup_insert_ne by lia.
    apply list_lookup_insert_eq. rewrite length_insert. lia.
  - rewrite getitem_nonneg by (rewrite !length_insert; lia).
    apply list_lookup_insert_eq. rewrite !length_insert. lia.
  - intros a Ha Hout.
    rewrite !getitem_nonneg by (rewrite ?length_insert; lia).
    rewrite !list_lookup_insert_ne by lia. reflexivity.
Qed.

(** [V0 = 123] and [I = 0x300] on the fresh interpreter. *)
Lemma load_bcd_on_a_byte_witness :
  let s := set_address_register 0x300 (with_registers 123 0 0 init) in
  exists s' f,
    load_bcd 0 s = Return tt s' /\
    program_counter s' = program_counter s + 2 /\
    int_truediv_ten (reg s 0) = inr f /\
    cell s' (address_register s + 2) = Some (PyInt (reg s 0 mod 10)) /\
    cell s' (address_register s + 1) = Some (PyFloat (float_rem_ten f)) /\
    cell s' (address_register s) =
      Some (PyFloat (float_rem_ten (f / float_ten))) /\
    (forall a, 0 <= a < Z.of_nat (length (memory s)) ->
       ~ (address_register s <= a <= address_register s + 2) ->
       cell s' a = cell s a) /\
    registers s' = registers s /\
    address_register s' = address_register s.
Proof.
  apply (load_bcd_on_a_byte
           (set_address_register 0x300 (with_registers 123 0 0 init)) 0);
    [reflexivity | lia | vm_compute; split; discriminate
     | vm_compute; discriminate | vm_compute; reflexivity].
Defined.

(** X17.  [load_bcd] at the end of the memory.  The loop writes cell [I+2] first,
    so with sixteen registers and [I + 2] at or past the end of the memory
    it raises [IndexError] before anything is written: the object is as it
    was, whatever [Vx] holds. *)
Theorem load_bcd_past_the_end (s : Chip8) (vx : Z) :
  length (registers s) = 16%nat -> 0 <= vx < 16 ->
  Z.of_nat (length (memory s)) <= address_register s + 2 ->
  load_bcd vx s = Raise IndexError s.
Proof.
  intros Hlen Hvx Hend. unfold load_bcd. py_simpl.
  rewrite get_register_ok by assumption.
  cbn [load_bcd_loop]. py_simpl.
  rewrite put_memory_out by assumption. reflexivity.
Qed.

(** [I = 4094], the last address at which two cells still fit. *)
Lemma load_bcd_past_the_end_witness :
  let s := set_address_register 4094 (with_registers 123 0 0 init) in
  load_bcd 0 s = Raise IndexError s.
Proof.
  apply (load_bcd_past_the_end
           (set_address_register 4094 (with_registers 123 0 0 init)) 0);
    [reflexivity | lia | vm_compute; discriminate].
Defined.
